(** * mesonbuild/compilers/mixins/arm.py

    A shallow embedding of the ARM compiler-family mixins of Meson
    ([ArmCompiler] for armcc, [ArmclangCompiler] for armclang) and the
    properties of their flag tables, their constructor-time toolchain
    validation and their path-argument rewriter.

    Python [str] is [string]; the module-level dictionaries are [gmap]s keyed
    by strings; Python exceptions are an error type threaded through a small
    state-and-error monad; list objects that the code mutates in place live in
    an explicit heap of references. *)

From Stdlib Require Import Ascii String List Bool Arith Lia.
From stdpp Require Import base option list gmap strings.

Local Open Scope list_scope.
Local Open Scope stdpp_scope.

(** ** Python [str] operations used by the module *)

Module PyStr.

(** [s[:n]]: a slice never fails, a short string is returned whole. *)
Fixpoint take (n : nat) (s : string) : string :=
  match n, s with
  | S n', String c s' => String c (take n' s')
  | _, _ => EmptyString
  end.

(** [s[n:]]. *)
Fixpoint drop (n : nat) (s : string) : string :=
  match n, s with
  | S n', String _ s' => drop n' s'
  | _, _ => s
  end.

(** [s.startswith(p)]. *)
Fixpoint startswith (p s : string) : bool :=
  match p, s with
  | EmptyString, _ => true
  | String a p', String b s' => Ascii.eqb a b && startswith p' s'
  | String _ _, EmptyString => false
  end.

(** [s.endswith(p)] for a one-character [p]. *)
Fixpoint endswith_char (c : ascii) (s : string) : bool :=
  match s with
  | EmptyString => false
  | String a EmptyString => Ascii.eqb a c
  | String _ s' => endswith_char c s'
  end.

(** [p in s]: [p] occurs in [s] as a contiguous substring. *)
Fixpoint contains (p s : string) : bool :=
  startswith p s ||
  match s with
  | EmptyString => false
  | String _ s' => contains p s'
  end.

(** [s.split(sep)] for a one-character separator: never returns the empty
    list, and adjacent separators give empty components. *)
Fixpoint split (sep : ascii) (s : string) : list string :=
  match s with
  | EmptyString => [EmptyString]
  | String c s' =>
      if Ascii.eqb c sep then EmptyString :: split sep s'
      else match split sep s' with
           | h :: t => String c h :: t
           | [] => [String c EmptyString]
           end
  end.

(** [sep.join(comps)]. *)
Fixpoint join (sep : string) (comps : list string) : string :=
  match comps with
  | [] => EmptyString
  | [c] => c
  | c :: cs => c +:+ sep +:+ join sep cs
  end.

(** Longest prefix of [s] whose characters all satisfy [p], and the rest:
    what a greedy [p+] or [p*] consumes when nothing after it can fail. *)
Fixpoint span (p : ascii -> bool) (s : string) : string * string :=
  match s with
  | String c s' =>
      if p c then let (a, b) := span p s' in (String c a, b)
      else (EmptyString, s)
  | EmptyString => (EmptyString, EmptyString)
  end.

(** Truthiness of a string: [bool(s)]. *)
Definition truthy (s : string) : bool :=
  match s with EmptyString => false | _ => true end.

Definition newline : ascii := Ascii.ascii_of_nat 10.
Definition dquote : ascii := Ascii.ascii_of_nat 34.

Definition in_range (lo hi c : ascii) : bool :=
  Nat.leb (Ascii.nat_of_ascii lo) (Ascii.nat_of_ascii c) &&
  Nat.leb (Ascii.nat_of_ascii c) (Ascii.nat_of_ascii hi).

(** [\d] and [[a-zA-Z0-9]] on ASCII text. *)
Definition is_digit (c : ascii) : bool := in_range "0"%char "9"%char c.
Definition is_alnum (c : ascii) : bool :=
  in_range "a"%char "z"%char c || in_range "A"%char "Z"%char c || is_digit c.

End PyStr.

(** ** The module-level flag tables *)

Definition arm_buildtype_args : gmap string (list string) :=
  list_to_map
    [ ("plain", []);
      ("debug", ["-O0"; "--debug"]);
      ("debugoptimized", ["-O1"; "--debug"]);
      ("release", ["-O3"; "-Otime"]);
      ("minsize", ["-O3"; "-Ospace"]);
      ("custom", []) ].

Definition arm_optimization_args : gmap string (list string) :=
  list_to_map
    [ ("0", ["-O0"]);
      ("g", ["-g"]);
      ("1", ["-O1"]);
      ("2", ["-O2"]);
      ("3", ["-O3"]);
      ("s", []) ].

Definition armclang_buildtype_args : gmap string (list string) :=
  list_to_map
    [ ("plain", []);
      ("debug", ["-O0"; "-g"]);
      ("debugoptimized", ["-O1"; "-g"]);
      ("release", ["-Os"]);
      ("minsize", ["-Oz"]);
      ("custom", []) ].

Definition armclang_optimization_args : gmap string (list string) :=
  list_to_map
    [ ("0", ["-O0"]);
      ("g", ["-g"]);
      ("1", ["-O1"]);
      ("2", ["-O2"]);
      ("3", ["-O3"]);
      ("s", ["-Os"]) ].

(** ** [os.path] on a POSIX host

    [os.path.join] and [os.path.normpath] belong to Python's standard library
    ([posixpath]); they are transcribed here for two-argument [join] and for
    text paths. *)

Module posixpath.

Definition sep : ascii := "/"%char.

(** [posixpath.join(a, b)]: an absolute [b] discards [a]; otherwise [b] is
    appended, with a separator unless [a] is empty or already ends in one. *)
Definition join (a b : string) : string :=
  if PyStr.startswith (String sep EmptyString) b then b
  else if negb (PyStr.truthy a) || PyStr.endswith_char sep a then a +:+ b
  else a +:+ String sep EmptyString +:+ b.

(** [initial_slashes]: 0 for a relative path, 2 for exactly two leading
    slashes, 1 for one or for three and more. *)
Definition initial_slashes (path : string) : nat :=
  if PyStr.startswith "/" path then
    if PyStr.startswith "//" path && negb (PyStr.startswith "///" path)
    then 2 else 1
  else 0.

(** [new_comps.pop()]. *)
Definition pop (l : list string) : list string := removelast l.

(** [new_comps[-1] == dotdot], guarded by [new_comps] being non-empty. *)
Definition last_is_dotdot (l : list string) : bool :=
  match last l with
  | Some c => String.eqb c ".."
  | None => false
  end.

(** One iteration of the loop over [comps] in [normpath]. *)
Definition normpath_step (slashes : nat) (new_comps : list string)
    (comp : string) : list string :=
  if String.eqb comp "" || String.eqb comp "." then new_comps
  else if negb (String.eqb comp "..")
          || (Nat.eqb slashes 0 && bool_decide (new_comps = []))
          || (negb (bool_decide (new_comps = [])) && last_is_dotdot new_comps)
       then new_comps ++ [comp]
       else if negb (bool_decide (new_comps = [])) then pop new_comps
            else new_comps.

Fixpoint repeat_sep (n : nat) : string :=
  match n with
  | O => EmptyString
  | S n' => String sep (repeat_sep n')
  end.

(** [posixpath.normpath(path)]. *)
Definition normpath (path : string) : string :=
  if String.eqb path "" then "."
  else
    let slashes := initial_slashes path in
    let comps := PyStr.split sep path in
    let new_comps := fold_left (normpath_step slashes) comps [] in
    let path' := PyStr.join "/" new_comps in
    let path'' := if Nat.eqb slashes 0 then path'
                  else repeat_sep slashes +:+ path' in
    if PyStr.truthy path'' then path'' else ".".

End posixpath.

(** ** The two [re.search] calls of [ArmclangCompiler.__init__]

    Each search is written as Python's backtracking matcher runs it on the
    pattern at hand: an anchored attempt at the current position, and on
    failure the same attempt one character further right.  A successful
    search is represented by its [group(0)], the matched text. *)

Module re.

(** The rest of the current line: [.] matches every character but a newline,
    so this is what a greedy [.*] consumes first. *)
Fixpoint line_prefix (s : string) : string :=
  match s with
  | String c s' =>
      if Ascii.eqb c PyStr.newline then EmptyString
      else String c (line_prefix s')
  | EmptyString => EmptyString
  end.

(** ['.*Component.*'] anchored at the start of [s]: the first [.*] gives
    characters back until [Component] fits, which happens exactly when the
    word occurs before the end of the line; the second [.*] then runs to the
    end of the line. *)
Definition match_component_at (s : string) : option string :=
  let l := line_prefix s in
  if PyStr.contains "Component" l then Some l else None.

(** [re.search('.*Component.*', s)]. *)
Fixpoint search_component (s : string) : option string :=
  match match_component_at s with
  | Some m => Some m
  | None =>
      match s with
      | String _ s' => search_component s'
      | EmptyString => None
      end
  end.

(** One round of the group [(\.\d+)]: a dot and the longest run of digits
    after it, which must not be empty. *)
Definition dot_digits (s : string) : option (string * string) :=
  match s with
  | String c r =>
      if Ascii.eqb c "."%char then
        let (ds, r') := PyStr.span PyStr.is_digit r in
        if PyStr.truthy ds then Some (String c ds, r') else None
      else None
  | EmptyString => None
  end.

(** [(\.\d+)*], greedy: rounds are taken as long as one fits.  Every round
    consumes at least two characters, so [fuel] equal to the length of the
    text is never used up. *)
Fixpoint dot_digits_star (fuel : nat) (s : string) : string * string :=
  match fuel with
  | O => (EmptyString, s)
  | S fuel' =>
      match dot_digits s with
      | Some (g, r) =>
          let (gs, r') := dot_digits_star fuel' r in (g +:+ gs, r')
      | None => (EmptyString, s)
      end
  end.

(** [(-[a-zA-Z0-9]+)?], greedy. *)
Definition dash_tag (s : string) : string * string :=
  match s with
  | String c r =>
      if Ascii.eqb c "-"%char then
        let (a, r') := PyStr.span PyStr.is_alnum r in
        if PyStr.truthy a then (String c a, r') else (EmptyString, s)
      else (EmptyString, s)
  | EmptyString => (EmptyString, s)
  end.

(** [(\.\d+)+(-[a-zA-Z0-9]+)?] anchored at the start of [s]; nothing
    follows in the pattern, so the greedy choices stand. *)
Definition match_version_tail (s : string) : option string :=
  match dot_digits s with
  | Some (g, r) =>
      let (gs, r') := dot_digits_star (String.length r) r in
      let (tag, _) := dash_tag r' in
      Some (g +:+ gs +:+ tag)
  | None => None
  end.

(** [\d{1,2}(\.\d+)+(-[a-zA-Z0-9]+)?] anchored at the start of [s]: two
    digits are tried first, then one. *)
Definition match_version_at (s : string) : option string :=
  let two :=
    match s with
    | String d1 (String d2 r) =>
        if PyStr.is_digit d1 && PyStr.is_digit d2 then
          match match_version_tail r with
          | Some t => Some (String d1 (String d2 t))
          | None => None
          end
        else None
    | _ => None
    end in
  match two with
  | Some m => Some m
  | None =>
      match s with
      | String d1 r =>
          if PyStr.is_digit d1 then
            match match_version_tail r with
            | Some t => Some (String d1 t)
            | None => None
            end
          else None
      | EmptyString => None
      end
  end.

(** The lookbehind [(?<!(\d|\.))]: [prev] is the character before the
    current position, if any. *)
Definition lookbehind_ok (prev : option ascii) : bool :=
  match prev with
  | Some c => negb (PyStr.is_digit c || Ascii.eqb c "."%char)
  | None => true
  end.

Fixpoint search_version_from (prev : option ascii) (s : string)
    : option string :=
  match (if lookbehind_ok prev then match_version_at s else None) with
  | Some m => Some m
  | None =>
      match s with
      | String c s' => search_version_from (Some c) s'
      | EmptyString => None
      end
  end.

(** [re.search(version_regex, s)]. *)
Definition search_version (s : string) : option string :=
  search_version_from None s.

End re.

(** ** Exceptions, the object under construction, and the construction monad *)

Inductive exn : Type :=
| EnvironmentException (msg : string)
| AssertionError
| TypeError
| KeyError (key : string)
| OSError (msg : string).

Inductive result (A : Type) : Type :=
| Ok (a : A)
| Raise (e : exn).

Arguments Ok {A} a.
Arguments Raise {A} e.

(** The attributes of the compiler object that the mixins read or assign.
    [is_cross], [version] and [can_compile_suffixes] are set by the base
    class before the mixin constructor runs. *)
Record Compiler : Type := mkCompiler {
  is_cross : bool;
  version : string;
  can_compile_suffixes : gset string;
  id : string;
  warn_args : gmap string (list string);
  linker_exe : string;
  base_options : list string
}.

(** The state a constructor runs in: the object [self] and the log of the
    external commands handed to [Popen_safe], oldest first. *)
Record State : Type := mkState {
  self : Compiler;
  launched : list (string * string)
}.

Definition M (A : Type) : Type := State -> result A * State.

Definition ret {A : Type} (a : A) : M A := fun st => (Ok a, st).

Definition raise {A : Type} (e : exn) : M A := fun st => (Raise e, st).

Definition bind {A B : Type} (m : M A) (k : A -> M B) : M B :=
  fun st =>
    match m st with
    | (Ok a, st') => k a st'
    | (Raise e, st') => (Raise e, st')
    end.

#[global] Instance M_ret : MRet M := @ret.
#[global] Instance M_bind : MBind M := fun A B k m => bind m k.

(** [try: m except OSError as e: handler e]; other exceptions propagate. *)
Definition try_except_OSError {A : Type} (m : M A) (handler : string -> M A)
    : M A :=
  fun st =>
    match m st with
    | (Raise (OSError e), st') => handler e st'
    | r => r
    end.

Definition get_self : M Compiler := fun st => (Ok (self st), st).

Definition set_self (f : Compiler -> Compiler) : M unit :=
  fun st => (Ok tt, mkState (f (self st)) (launched st)).

(** Attribute assignments [self.attr = v]. *)
Definition with_id (v : string) (c : Compiler) : Compiler :=
  mkCompiler (is_cross c) (version c) (can_compile_suffixes c) v
    (warn_args c) (linker_exe c) (base_options c).

Definition with_warn_args (v : gmap string (list string)) (c : Compiler)
    : Compiler :=
  mkCompiler (is_cross c) (version c) (can_compile_suffixes c) (id c)
    v (linker_exe c) (base_options c).

Definition with_linker_exe (v : string) (c : Compiler) : Compiler :=
  mkCompiler (is_cross c) (version c) (can_compile_suffixes c) (id c)
    (warn_args c) v (base_options c).

Definition with_base_options (v : list string) (c : Compiler) : Compiler :=
  mkCompiler (is_cross c) (version c) (can_compile_suffixes c) (id c)
    (warn_args c) (linker_exe c) v.

(** [self.can_compile_suffixes.add(x)], and [.update(x)] for a one-character
    string [x], whose only element is [x] itself. *)
Definition add_suffix (x : string) (c : Compiler) : Compiler :=
  mkCompiler (is_cross c) (version c) ({[x]} ∪ can_compile_suffixes c) (id c)
    (warn_args c) (linker_exe c) (base_options c).

(** [assert v] for an optional string: [None] and the empty string are
    falsy. *)
Definition assert_truthy (v : option string) : M string :=
  match v with
  | Some s => if PyStr.truthy s then ret s else raise AssertionError
  | None => raise AssertionError
  end.

(** ['==' + linker_ver]: concatenating [None] to a string is a [TypeError]. *)
Definition str_concat (a : string) (b : option string) : M string :=
  match b with
  | Some s => ret (a +:+ s)
  | None => raise TypeError
  end.

(** Modelled from the spec: [mesonlib.version_compare] is imported from a
    module that is not part of these sources.  The spec fixes the comparison
    made under the [==] operator as strict equality of the two version
    strings (string equality, not semantic version matching). *)
Definition version_compare (vstr1 vstr2 : string) : bool :=
  if PyStr.startswith "==" vstr2 then String.eqb vstr1 (PyStr.drop 2 vstr2)
  else String.eqb vstr1 vstr2.

(** [mesonlib.Popen_safe] hands a command to the operating system.  What the
    system answers is a parameter [spawn]: either the text of an [OSError], or
    the captured standard output and standard error.  Every call is logged. *)
Definition Popen_safe (spawn : string -> string -> string + string * string)
    (exe args : string) : M (string * string) :=
  fun st =>
    let st' := mkState (self st) (launched st ++ [(exe, args)]) in
    match spawn exe args with
    | inl e => (Raise (OSError e), st')
    | inr out => (Ok out, st')
    end.

(** ** The heap of list objects

    A Python list is passed by reference; the path rewriter assigns to the
    elements of the list it is given. *)

Abbreviation loc := nat (only parsing).
Abbreviation heap := (gmap nat (list string)) (only parsing).

(** ** class ArmCompiler *)

Module ArmCompiler.

Definition __init__ : M unit :=
  slf ← get_self;
  if negb (is_cross slf) then
    raise (EnvironmentException "armcc supports only cross-compilation.")
  else
    set_self (with_id "arm");;
    let default_warn_args : list string := [] in
    set_self (with_warn_args
                (list_to_map [ ("0", []);
                               ("1", default_warn_args);
                               ("2", default_warn_args ++ []);
                               ("3", default_warn_args ++ []) ]));;
    set_self (add_suffix "s").

Definition get_pic_args : list string := [].

Definition get_buildtype_args (buildtype : string) : result (list string) :=
  match arm_buildtype_args !! buildtype with
  | Some l => Ok l
  | None => Raise (KeyError buildtype)
  end.

Definition get_always_args : list string := [].

Definition get_dependency_gen_args (outtarget outfile : string)
    : list string := [].

Definition get_pch_use_args (pch_dir header : string) : list string := [].

Definition get_pch_suffix : string := "pch".

Definition get_coverage_args : list string := [].

Definition get_optimization_args (optimization_level : string)
    : result (list string) :=
  match arm_optimization_args !! optimization_level with
  | Some l => Ok l
  | None => Raise (KeyError optimization_level)
  end.

(** The [for idx, i in enumerate(parameter_list)] loop.  The iterator reads
    [parameter_list[idx]] from the list object as it is at that moment and
    stops when [idx] is past the end; the body never changes the length, so
    [fuel] equal to the length at entry covers every iteration. *)
Fixpoint rewrite_loop (fuel idx : nat) (parameter_list : loc)
    (build_dir : string) (h : heap) : heap :=
  match fuel with
  | O => h
  | S fuel' =>
      match h !! parameter_list ≫= (fun l => l !! idx) with
      | None => h
      | Some i =>
          let h' :=
            if String.eqb (PyStr.take 2 i) "-I"
               || String.eqb (PyStr.take 2 i) "-L"
            then alter (fun l =>
                   <[idx := PyStr.take 2 i +:+
                            posixpath.normpath
                              (posixpath.join build_dir (PyStr.drop 2 i))]> l)
                   parameter_list h
            else h in
          rewrite_loop fuel' (S idx) parameter_list build_dir h'
      end
  end.

(** Returns the reference it was given, and the heap after the loop. *)
Definition compute_parameters_with_absolute_paths (parameter_list : loc)
    (build_dir : string) (h : heap) : loc * heap :=
  (parameter_list,
   rewrite_loop (length (default [] (h !! parameter_list))) 0
     parameter_list build_dir h).

End ArmCompiler.

(** ** class ArmclangCompiler *)

Module ArmclangCompiler.

Section Methods.

(** The operating system's answer to a command, see [Popen_safe]. *)
Variable spawn : string -> string -> string + string * string.

(** [self.get_pch_name], inherited from a base class outside this file. *)
Variable get_pch_name : string -> string.

(** ['Unknown linker\nRunning {0} gave \n{1}'], both holes in double
    quotes, filled with the command line and the text of the [OSError]. *)
Definition err_msg (cmd e : string) : string :=
  "Unknown linker" +:+ String PyStr.newline "Running "
  +:+ String PyStr.dquote cmd +:+ String PyStr.dquote " gave "
  +:+ String PyStr.newline (String PyStr.dquote e)
  +:+ String PyStr.dquote EmptyString.

Definition __init__ : M unit :=
  slf ← get_self;
  if negb (is_cross slf) then
    raise (EnvironmentException "armclang supports only cross-compilation.")
  else
    set_self (with_linker_exe "armlink");;
    slf ← get_self;
    let args := "--vsn" in
    out ← try_except_OSError
             (Popen_safe spawn (linker_exe slf) args)
             (fun e =>
                raise (EnvironmentException
                         (err_msg (PyStr.join " " ([linker_exe slf] ++ [args]))
                                  e)));
    let stdo := fst out in
    (* if ver_str: ver_str = ver_str.group(0); otherwise the exception object
       is built and dropped, and ver_str stays None *)
    let ver_str :=
      match re.search_component stdo with
      | Some m => Some m
      | None =>
          let _ := EnvironmentException "armlink version string not found" in
          None
      end in
    ver_str ← assert_truthy ver_str;
    let linker_ver := re.search_version ver_str in
    wanted ← str_concat "==" linker_ver;
    if negb (version_compare (version slf) wanted) then
      raise (EnvironmentException
               "armlink version does not match with compiler version")
    else
      set_self (with_id "armclang");;
      set_self (with_base_options
                  ["b_pch"; "b_lto"; "b_pgo"; "b_sanitize"; "b_coverage";
                   "b_ndebug"; "b_staticpic"; "b_colorout"]);;
      set_self (add_suffix "s").

Definition get_pic_args : list string := [].

Definition get_buildtype_args (buildtype : string) : result (list string) :=
  match armclang_buildtype_args !! buildtype with
  | Some l => Ok l
  | None => Raise (KeyError buildtype)
  end.

Definition get_pch_suffix : string := "gch".

Definition get_pch_use_args (pch_dir header : string) : list string :=
  ["-include-pch"; posixpath.join pch_dir (get_pch_name header)].

Definition get_dependency_gen_args (outtarget outfile : string)
    : list string := [].

Definition get_optimization_args (optimization_level : string)
    : result (list string) :=
  match armclang_optimization_args !! optimization_level with
  | Some l => Ok l
  | None => Raise (KeyError optimization_level)
  end.

(** The loop of [compute_parameters_with_absolute_paths], as in
    [ArmCompiler]. *)
Fixpoint rewrite_loop (fuel idx : nat) (parameter_list : loc)
    (build_dir : string) (h : heap) : heap :=
  match fuel with
  | O => h
  | S fuel' =>
      match h !! parameter_list ≫= (fun l => l !! idx) with
      | None => h
      | Some i =>
          let h' :=
            if String.eqb (PyStr.take 2 i) "-I"
               || String.eqb (PyStr.take 2 i) "-L"
            then alter (fun l =>
                   <[idx := PyStr.take 2 i +:+
                            posixpath.normpath
                              (posixpath.join build_dir (PyStr.drop 2 i))]> l)
                   parameter_list h
            else h in
          rewrite_loop fuel' (S idx) parameter_list build_dir h'
      end
  end.

Definition compute_parameters_with_absolute_paths (parameter_list : loc)
    (build_dir : string) (h : heap) : loc * heap :=
  (parameter_list,
   rewrite_loop (length (default [] (h !! parameter_list))) 0
     parameter_list build_dir h).

End Methods.

End ArmclangCompiler.

(** ** Base-class defaults *)

Module Compiler_defaults.

(** Modelled from the spec: [ArmclangCompiler] defines neither
    [get_coverage_args] nor [get_always_args]; it inherits them from base
    classes outside this file.  The spec gives the default of every such
    query: an empty list. *)
Definition get_coverage_args : list string := [].

(** Modelled from the spec: see [get_coverage_args]. *)
Definition get_always_args : list string := [].

End Compiler_defaults.

(** ** Vocabularies and sample inputs *)

(** The build-type and optimization-level keys of the host build tool. *)
Definition buildtype_keys : list string :=
  ["plain"; "debug"; "debugoptimized"; "release"; "minsize"; "custom"].

Definition optimization_keys : list string :=
  ["0"; "g"; "1"; "2"; "3"; "s"].

(** A compiler object as the base class leaves it for the mixin. *)
Definition fresh_compiler (cross : bool) (ver : string) : Compiler :=
  mkCompiler cross ver ∅ "" ∅ "" [].

Definition fresh_state (cross : bool) (ver : string) : State :=
  mkState (fresh_compiler cross ver) [].

(** A system on which every command prints [out] and nothing on stderr. *)
Definition prints (out : string) : string -> string -> string + string * string :=
  fun _ _ => inr (out, "").

(** A system on which no command can be launched. *)
Definition unavailable (e : string) : string -> string -> string + string * string :=
  fun _ _ => inl e.

(** A heap holding one list object, at reference 1. *)
Definition one_list (args : list string) : gmap nat (list string) :=
  {[ 1 := args ]}.

(** The contract of the path rewriter in the words of the specification: a
    token whose first two characters are [-I] or [-L] keeps them and has the
    remainder replaced by its path joined onto the base directory and
    normalized; every other token passes through. *)
Definition has_path_prefix (tok : string) : bool :=
  String.eqb (PyStr.take 2 tok) "-I" || String.eqb (PyStr.take 2 tok) "-L".

Definition rewrite_token (base_dir tok : string) : string :=
  if has_path_prefix tok
  then PyStr.take 2 tok +:+
       posixpath.normpath (posixpath.join base_dir (PyStr.drop 2 tok))
  else tok.

Definition rewrite_paths (args : list string) (base_dir : string)
    : list string :=
  rewrite_token base_dir <$> args.

(** A component list in normal form: a block of [..] components, which a
    rooted path never has, followed by components that are none of the empty
    string, [.] and [..]. *)
Definition collapsed (slashes : nat) (comps : list string) : Prop :=
  exists k rest,
    comps = replicate k ".." ++ rest
    /\ Forall (fun c => c <> "" /\ c <> "." /\ c <> "..") rest
    /\ (slashes <> 0 -> k = 0).

(** The path text of a component list behind [slashes] leading slashes. *)
Definition render (slashes : nat) (comps : list string) : string :=
  let body := posixpath.repeat_sep slashes +:+ PyStr.join "/" comps in
  if PyStr.truthy body then body else ".".

(** No character of [s] is the path separator. *)
Fixpoint no_sep (s : string) : bool :=
  match s with
  | EmptyString => true
  | String c s' => negb (Ascii.eqb c posixpath.sep) && no_sep s'
  end.

(** Every character of [s] is a decimal digit. *)
Fixpoint all_digits (s : string) : bool :=
  match s with
  | EmptyString => true
  | String c s' => PyStr.is_digit c && all_digits s'
  end.

(** The last character of [s], or [prev] when [s] is empty. *)
Fixpoint last_char (prev : option ascii) (s : string) : option ascii :=
  match s with
  | EmptyString => prev
  | String c s' => last_char (Some c) s'
  end.

(** The state right after the linker was asked for its version:
    [linker_exe] is assigned and the command is in the log. *)
Definition after_launch (st : State) : State :=
  mkState (with_linker_exe "armlink" (self st))
          (launched st ++ [("armlink", "--vsn")]).

(** The boolean options an armclang object declares. *)
Definition armclang_base_options : list string :=
  ["b_pch"; "b_lto"; "b_pgo"; "b_sanitize"; "b_coverage";
   "b_ndebug"; "b_staticpic"; "b_colorout"].

(** The message raised on a version mismatch. *)
Definition mismatch_msg : string :=
  "armlink version does not match with compiler version".

(** * Properties *)

(** ** Flag tables *)

(** C5: for both families and each of the six build-type keys,
    [get_buildtype_args] returns a list and raises nothing; for the keys
    plain and custom the list is empty in both families. *)
Theorem C5_buildtype_args_total :
  Forall (fun k => (exists l, ArmCompiler.get_buildtype_args k = Ok l)
                /\ (exists l, ArmclangCompiler.get_buildtype_args k = Ok l))
         buildtype_keys
  /\ ArmCompiler.get_buildtype_args "plain" = Ok []
  /\ ArmCompiler.get_buildtype_args "custom" = Ok []
  /\ ArmclangCompiler.get_buildtype_args "plain" = Ok []
  /\ ArmclangCompiler.get_buildtype_args "custom" = Ok [].
Proof.
  split; [| repeat split; reflexivity].
  unfold buildtype_keys.
  repeat (apply Forall_cons_2; [split; eexists; reflexivity |]).
  apply Forall_nil_2.
Qed.

(** The two build-type tables have exactly the six keys of the vocabulary. *)
Lemma buildtype_tables_closed (k : string) :
  (is_Some (arm_buildtype_args !! k) <-> k ∈ buildtype_keys)
  /\ (is_Some (armclang_buildtype_args !! k) <-> k ∈ buildtype_keys).
Proof.
  unfold arm_buildtype_args, armclang_buildtype_args, buildtype_keys.
  split; rewrite <- elem_of_dom, dom_list_to_map_L; simpl; set_solver.
Qed.

(** C6: for both families and every optimization key among 0, g, 1, 2, 3,
    [get_optimization_args] returns a one-token list, the token being
    [-O<key>] or [-g] as the family's table has it; for key s the arm family
    returns the empty list and the armclang family returns [-Os]. *)
Theorem C6_optimization_args :
  Forall (fun k => exists tok,
            ArmCompiler.get_optimization_args k = Ok [tok]
            /\ ArmclangCompiler.get_optimization_args k = Ok [tok]
            /\ arm_optimization_args !! k = Some [tok]
            /\ armclang_optimization_args !! k = Some [tok]
            /\ tok = (if String.eqb k "g" then "-g" else "-O" +:+ k))
         ["0"; "g"; "1"; "2"; "3"]
  /\ ArmCompiler.get_optimization_args "s" = Ok []
  /\ ArmclangCompiler.get_optimization_args "s" = Ok ["-Os"].
Proof.
  split; [| split; reflexivity].
  repeat (apply Forall_cons_2;
          [eexists; repeat split; reflexivity |]).
  apply Forall_nil_2.
Qed.

(** ** Capability queries *)

(** C9: the capability queries of both families are total and raise nothing.
    For armcc the position-independent-code, precompiled-header-use,
    dependency-generation, coverage and always-applied arguments are all
    empty and the header suffix is [pch]; for armclang the
    position-independent-code, dependency-generation, coverage and
    always-applied arguments are empty, the header suffix is [gch], and the
    precompiled-header-use arguments, a supported capability, are the two
    tokens [-include-pch] and the header path. *)
Theorem C9_capability_queries :
  (ArmCompiler.get_pic_args = []
   /\ (forall pch_dir header, ArmCompiler.get_pch_use_args pch_dir header = [])
   /\ ArmCompiler.get_pch_suffix = "pch"
   /\ (forall outtarget outfile,
         ArmCompiler.get_dependency_gen_args outtarget outfile = [])
   /\ ArmCompiler.get_coverage_args = []
   /\ ArmCompiler.get_always_args = [])
  /\ (ArmclangCompiler.get_pic_args = []
      /\ (forall get_pch_name pch_dir header,
            ArmclangCompiler.get_pch_use_args get_pch_name pch_dir header
            = ["-include-pch"; posixpath.join pch_dir (get_pch_name header)])
      /\ ArmclangCompiler.get_pch_suffix = "gch"
      /\ (forall outtarget outfile,
            ArmclangCompiler.get_dependency_gen_args outtarget outfile = [])
      /\ Compiler_defaults.get_coverage_args = []
      /\ Compiler_defaults.get_always_args = []).
Proof. repeat split. Qed.

(** ** Cross-compilation precondition *)

(** C3: constructing either ARM-family mixin on an object whose [is_cross]
    flag is false raises the [EnvironmentException] saying that the family
    supports only cross-compilation, and leaves the state as it was: no
    attribute is assigned and [Popen_safe] is not called, whatever the
    system would have answered. *)
Theorem C3_cross_compilation_required
    (spawn : string -> string -> string + string * string) (st : State) :
  is_cross (self st) = false ->
  ArmCompiler.__init__ st
    = (Raise (EnvironmentException "armcc supports only cross-compilation."),
       st)
  /\ ArmclangCompiler.__init__ spawn st
    = (Raise (EnvironmentException
                "armclang supports only cross-compilation."), st)
  /\ launched (snd (ArmCompiler.__init__ st)) = launched st
  /\ launched (snd (ArmclangCompiler.__init__ spawn st)) = launched st.
Proof.
  intros Hcross.
  assert (H1 : ArmCompiler.__init__ st
    = (Raise (EnvironmentException "armcc supports only cross-compilation."),
       st)).
  { unfold ArmCompiler.__init__, mbind, M_bind, bind, get_self, raise.
    simpl. rewrite Hcross. reflexivity. }
  assert (H2 : ArmclangCompiler.__init__ spawn st
    = (Raise (EnvironmentException
                "armclang supports only cross-compilation."), st)).
  { unfold ArmclangCompiler.__init__, mbind, M_bind, bind, get_self, raise.
    simpl. rewrite Hcross. reflexivity. }
  rewrite H1, H2. repeat split.
Qed.

Lemma C3_cross_compilation_required_witness :
  ArmCompiler.__init__ (fresh_state false "5.06")
    = (Raise (EnvironmentException "armcc supports only cross-compilation."),
       fresh_state false "5.06")
  /\ ArmclangCompiler.__init__ (prints "Component: ARM Compiler 6.15")
       (fresh_state false "6.15")
    = (Raise (EnvironmentException
                "armclang supports only cross-compilation."),
       fresh_state false "6.15").
Proof.
  pose proof (C3_cross_compilation_required
                (prints "Component: ARM Compiler 6.15")
                (fresh_state false "6.15") eq_refl) as Hb.
  pose proof (C3_cross_compilation_required
                (prints "Component: ARM Compiler 6.15")
                (fresh_state false "5.06") eq_refl) as Ha.
  split; [apply Ha | apply Hb].
Defined.

(** The armcc mixin never calls [Popen_safe], cross or not. *)
Lemma ArmCompiler_init_launches_nothing (st : State) :
  launched (snd (ArmCompiler.__init__ st)) = launched st.
Proof.
  unfold ArmCompiler.__init__, mbind, M_bind, bind, get_self, raise, set_self.
  simpl. destruct (is_cross (self st)); reflexivity.
Qed.

(** ** Path normalization *)

Lemma collapsed_nil (slashes : nat) : collapsed slashes [].
Proof. exists 0, []. repeat split. apply Forall_nil_2. Qed.

(** Each round of the loop of [normpath] keeps the component list in normal
    form. *)
Lemma normpath_step_collapsed (slashes : nat) (acc : list string)
    (comp : string) :
  collapsed slashes acc ->
  collapsed slashes (posixpath.normpath_step slashes acc comp).
Proof.
  intros (k & rest & -> & Hrest & Hk). unfold posixpath.normpath_step.
  destruct (String.eqb_spec comp "") as [-> | Hne];
    [exists k, rest; auto |].
  destruct (String.eqb_spec comp ".") as [-> | Hnd];
    [exists k, rest; auto |].
  cbn [orb].
  destruct (String.eqb_spec comp "..") as [-> | Hndd]; cbn [negb orb].
  - (* a [..] component *)
    destruct rest as [| r rest' _] using rev_ind.
    + rewrite app_nil_r.
      destruct k as [| k].
      * (* nothing collected yet *)
        cbn [replicate]. rewrite bool_decide_eq_true_2 by reflexivity.
        cbn [negb andb orb].
        destruct (Nat.eqb_spec slashes 0) as [Hs | Hs]; cbn [andb orb].
        -- exists 1, []. repeat split; [apply Forall_nil_2 | tauto].
        -- exists 0, []. repeat split. apply Forall_nil_2.
      * (* only [..] collected so far *)
        rewrite bool_decide_eq_false_2 by discriminate.
        unfold posixpath.last_is_dotdot.
        rewrite replicate_S_end, last_snoc. cbn [negb andb orb].
        rewrite andb_false_r. cbn [orb String.eqb Ascii.eqb Bool.eqb].
        exists (S (S k)), []. rewrite app_nil_r.
        repeat split.
        -- now rewrite <- !replicate_S_end.
        -- apply Forall_nil_2.
        -- intros Hs. specialize (Hk Hs). discriminate.
    + (* the last collected component is an ordinary one: drop it *)
      apply Forall_app in Hrest as [Hrest' Hr].
      apply Forall_inv in Hr as (_ & _ & Hrdd).
      rewrite app_assoc.
      rewrite bool_decide_eq_false_2
        by (intros Habs; apply app_eq_nil in Habs as [_ Habs];
            discriminate).
      unfold posixpath.last_is_dotdot, posixpath.pop.
      rewrite last_snoc, removelast_last.
      destruct (String.eqb_spec r "..") as [-> | _]; [contradiction |].
      rewrite andb_false_r. cbn [negb andb orb].
      exists k, rest'. auto.
  - (* an ordinary component *)
    exists k, (rest ++ [comp]). rewrite app_assoc. repeat split.
    + apply Forall_app. split; [exact Hrest |].
      apply Forall_cons_2; [auto | apply Forall_nil_2].
    + exact Hk.
Qed.

Lemma normpath_fold_collapsed (slashes : nat) (comps acc : list string) :
  collapsed slashes acc ->
  collapsed slashes (fold_left (posixpath.normpath_step slashes) comps acc).
Proof.
  revert acc. induction comps as [| c comps IH]; intros acc Hacc.
  - exact Hacc.
  - cbn [fold_left]. apply IH. now apply normpath_step_collapsed.
Qed.

(** [normpath] returns the text of a component list in normal form: no
    empty and no [.] component is left, and [..] components remain only at
    the front of a relative path. *)
Lemma normpath_collapsed (path : string) :
  exists slashes comps,
    collapsed slashes comps
    /\ posixpath.normpath path = render slashes comps.
Proof.
  unfold posixpath.normpath.
  destruct (String.eqb_spec path "") as [-> | Hne].
  - exists 0, []. split; [apply collapsed_nil | reflexivity].
  - exists (posixpath.initial_slashes path),
           (fold_left
              (posixpath.normpath_step (posixpath.initial_slashes path))
              (PyStr.split posixpath.sep path) []).
    split; [apply normpath_fold_collapsed, collapsed_nil |].
    unfold render.
    destruct (Nat.eqb_spec (posixpath.initial_slashes path) 0) as [-> | _];
      reflexivity.
Qed.

Example normpath_samples :
  posixpath.normpath (posixpath.join "/build" "../inc") = "/inc"
  /\ posixpath.normpath "a/./b/../../../c//d/" = "../c/d"
  /\ posixpath.normpath "//a/../.." = "//"
  /\ posixpath.normpath "///a/../../b" = "/b"
  /\ posixpath.normpath "./" = "."
  /\ posixpath.normpath "" = "."
  /\ posixpath.join "/build" "/usr/include" = "/usr/include"
  /\ posixpath.join "build/" "inc" = "build/inc".
Proof. repeat split. Qed.

(** ** The path rewriter *)

Section PathRewriter.

Implicit Types (h : gmap nat (list string)) (l args : list string).

(** Loop invariant: entering the loop at index [idx] on a list [l], the loop
    leaves the first [idx] elements alone and stores the rewritten form of
    every later one, in the same list object. *)
Lemma rewrite_loop_spec (pl : nat) (build_dir : string) :
  forall fuel idx h l,
    h !! pl = Some l ->
    idx + fuel = length l ->
    ArmCompiler.rewrite_loop fuel idx pl build_dir h
    = <[pl := take idx l ++ (rewrite_token build_dir <$> drop idx l)]> h.
Proof.
  induction fuel as [| fuel IH]; intros idx h l Hl Hlen;
    cbn [ArmCompiler.rewrite_loop].
  - replace idx with (length l) by lia.
    rewrite take_ge, drop_ge by lia. rewrite fmap_nil, app_nil_r.
    symmetry. apply insert_id. exact Hl.
  - rewrite Hl. cbn [mbind option_bind].
    destruct (lookup_lt_is_Some_2 l idx) as [i Hi]; [lia |].
    rewrite Hi.
    rewrite (drop_S l i idx Hi). rewrite fmap_cons.
    unfold rewrite_token at 1, has_path_prefix.
    destruct (String.eqb (PyStr.take 2 i) "-I"
              || String.eqb (PyStr.take 2 i) "-L") eqn:Hpre.
    + set (new := PyStr.take 2 i +:+ _).
      rewrite (IH (S idx) _ (<[idx := new]> l)).
      * rewrite insert_alter_eq.
        f_equal.
        rewrite drop_insert_lt by lia.
        rewrite (take_S_r (<[idx := new]> l) idx new).
        -- rewrite take_insert_ge by lia. now rewrite <- app_assoc.
        -- apply list_lookup_insert_eq. lia.
      * rewrite lookup_alter_eq, Hl. reflexivity.
      * rewrite length_insert. lia.
    + rewrite (IH (S idx) h l Hl) by lia.
      f_equal. rewrite (take_S_r l idx i Hi). now rewrite <- app_assoc.
Qed.

(** The two classes carry the same method. *)
Lemma armclang_rewriter_same :
  ArmclangCompiler.compute_parameters_with_absolute_paths
  = ArmCompiler.compute_parameters_with_absolute_paths.
Proof. reflexivity. Qed.

(** The method returns the reference it was given, and the list object
    behind it holds the rewritten tokens afterwards. *)
Lemma compute_parameters_spec (pl : nat) (build_dir : string) h args :
  h !! pl = Some args ->
  ArmCompiler.compute_parameters_with_absolute_paths pl build_dir h
  = (pl, <[pl := rewrite_paths args build_dir]> h).
Proof.
  intros Hl. unfold ArmCompiler.compute_parameters_with_absolute_paths.
  rewrite Hl. change (default [] (Some args)) with args.
  rewrite (rewrite_loop_spec pl build_dir (length args) 0 h args Hl)
    by reflexivity.
  reflexivity.
Qed.

Lemma take2_prefixed (tok rest : string) :
  has_path_prefix tok = true ->
  PyStr.take 2 (PyStr.take 2 tok +:+ rest) = PyStr.take 2 tok.
Proof.
  unfold has_path_prefix. intros H.
  apply orb_true_iff in H.
  destruct H as [H | H]; apply String.eqb_eq in H; rewrite H; reflexivity.
Qed.

Lemma rewrite_token_unprefixed (build_dir tok : string) :
  has_path_prefix tok = false -> rewrite_token build_dir tok = tok.
Proof. unfold rewrite_token. intros ->. reflexivity. Qed.

Lemma rewrite_token_take2 (build_dir tok : string) :
  PyStr.take 2 (rewrite_token build_dir tok) = PyStr.take 2 tok.
Proof.
  unfold rewrite_token. destruct (has_path_prefix tok) eqn:H; [| reflexivity].
  now apply take2_prefixed.
Qed.

Lemma rewrite_paths_lookup (args : list string) (build_dir : string)
    (idx : nat) (tok : string) :
  args !! idx = Some tok ->
  rewrite_paths args build_dir !! idx = Some (rewrite_token build_dir tok).
Proof.
  intros H. unfold rewrite_paths. rewrite list_lookup_fmap, H. reflexivity.
Qed.

End PathRewriter.

(** C4, as stated, fails: the method assigns to the elements of the list it
    is given and returns that very list.  After the call on the list
    [['-Ifoo']] with base directory [/build], the caller's list has changed,
    and the reference returned is the one passed in. *)
Lemma C4_counterexample :
  (snd (ArmCompiler.compute_parameters_with_absolute_paths 1 "/build"
          (one_list ["-Ifoo"])) !! 1
   <> one_list ["-Ifoo"] !! 1
   /\ fst (ArmCompiler.compute_parameters_with_absolute_paths 1 "/build"
             (one_list ["-Ifoo"])) = 1)
  /\ (snd (ArmclangCompiler.compute_parameters_with_absolute_paths 1 "/build"
             (one_list ["-Ifoo"])) !! 1
      <> one_list ["-Ifoo"] !! 1
      /\ fst (ArmclangCompiler.compute_parameters_with_absolute_paths 1
                "/build" (one_list ["-Ifoo"])) = 1).
Proof.
  rewrite armclang_rewriter_same.
  assert (Hin : one_list ["-Ifoo"] !! 1 = Some ["-Ifoo"]) by reflexivity.
  rewrite (compute_parameters_spec 1 "/build" _ _ Hin).
  cbn [fst snd]. rewrite lookup_insert_eq, Hin.
  repeat split; try discriminate.
Qed.

(** C4, amended: the path rewriter works in place.  It returns the
    reference of the caller's list, that list holds the rewritten tokens
    after the call (tokens without the [-I] or [-L] prefix keep their value),
    no new list object is created and no other list object changes. *)
Theorem C4_rewriter_in_place (h : gmap nat (list string)) (pl : nat)
    (args : list string) (build_dir : string) :
  h !! pl = Some args ->
  ArmCompiler.compute_parameters_with_absolute_paths pl build_dir h
    = (pl, <[pl := rewrite_paths args build_dir]> h)
  /\ ArmclangCompiler.compute_parameters_with_absolute_paths pl build_dir h
    = (pl, <[pl := rewrite_paths args build_dir]> h)
  /\ dom (snd (ArmCompiler.compute_parameters_with_absolute_paths
                 pl build_dir h)) = dom h
  /\ (forall other, other <> pl ->
        snd (ArmCompiler.compute_parameters_with_absolute_paths
               pl build_dir h) !! other = h !! other).
Proof.
  intros Hl. rewrite armclang_rewriter_same.
  rewrite (compute_parameters_spec pl build_dir h args Hl). cbn [snd].
  repeat split.
  - apply dom_insert_lookup_L. rewrite Hl. eauto.
  - intros other Hne. apply lookup_insert_ne. congruence.
Qed.

Lemma C4_rewriter_in_place_witness :
  ArmCompiler.compute_parameters_with_absolute_paths 1 "/build"
    (one_list ["-Ifoo"; "-c"])
  = (1, <[1 := rewrite_paths ["-Ifoo"; "-c"] "/build"]>
          (one_list ["-Ifoo"; "-c"])).
Proof.
  apply (C4_rewriter_in_place (one_list ["-Ifoo"; "-c"]) 1 ["-Ifoo"; "-c"]
           "/build").
  reflexivity.
Defined.

(** C7: the list behind the returned reference holds, at every position,
    the input token itself when its first two characters are neither [-I]
    nor [-L], and otherwise those two characters followed by
    [normpath(join(build_dir, remainder))], which is the text of a
    component list with no empty and no [.] component and with [..] only at
    the front of a relative path; on [['-I../inc']] with base directory
    [/build] the result is [['-I/inc']]. *)
Theorem C7_rewrite_paths (h : gmap nat (list string)) (pl : nat)
    (args : list string) (build_dir : string) :
  h !! pl = Some args ->
  exists out,
    snd (ArmCompiler.compute_parameters_with_absolute_paths pl build_dir h)
      !! fst (ArmCompiler.compute_parameters_with_absolute_paths
                pl build_dir h) = Some out
    /\ snd (ArmclangCompiler.compute_parameters_with_absolute_paths
              pl build_dir h)
         !! fst (ArmclangCompiler.compute_parameters_with_absolute_paths
                   pl build_dir h) = Some out
    /\ (forall idx tok, args !! idx = Some tok ->
          out !! idx
          = Some (if String.eqb (PyStr.take 2 tok) "-I"
                     || String.eqb (PyStr.take 2 tok) "-L"
                  then PyStr.take 2 tok +:+
                       posixpath.normpath
                         (posixpath.join build_dir (PyStr.drop 2 tok))
                  else tok))
    /\ (forall idx tok, args !! idx = Some tok ->
          has_path_prefix tok = true ->
          exists slashes comps,
            collapsed slashes comps
            /\ out !! idx
               = Some (PyStr.take 2 tok +:+ render slashes comps))
    /\ (forall idx, args !! idx = None -> out !! idx = None)
    /\ (args = ["-I../inc"] -> build_dir = "/build" -> out = ["-I/inc"]).
Proof.
  intros Hl. exists (rewrite_paths args build_dir).
  rewrite armclang_rewriter_same.
  rewrite (compute_parameters_spec pl build_dir h args Hl). cbn [fst snd].
  rewrite lookup_insert_eq. repeat split.
  - intros idx tok Htok. now apply rewrite_paths_lookup.
  - intros idx tok Htok Hpre.
    destruct (normpath_collapsed
                (posixpath.join build_dir (PyStr.drop 2 tok)))
      as (slashes & comps & Hc & Hn).
    exists slashes, comps. split; [exact Hc |].
    rewrite (rewrite_paths_lookup args build_dir idx tok Htok).
    unfold rewrite_token. rewrite Hpre, Hn. reflexivity.
  - intros idx Hnone. unfold rewrite_paths.
    rewrite list_lookup_fmap, Hnone. reflexivity.
  - intros -> ->. reflexivity.
Qed.

Lemma C7_rewrite_paths_witness :
  snd (ArmCompiler.compute_parameters_with_absolute_paths 1 "/build"
         (one_list ["-I../inc"])) !! 1 = Some ["-I/inc"]
  /\ snd (ArmclangCompiler.compute_parameters_with_absolute_paths 1 "/build"
            (one_list ["-I../inc"])) !! 1 = Some ["-I/inc"].
Proof.
  destruct (C7_rewrite_paths (one_list ["-I../inc"]) 1 ["-I../inc"] "/build"
              eq_refl) as (out & Ha & Hb & _ & _ & _ & Hex).
  rewrite (Hex eq_refl eq_refl) in Ha, Hb. split; [exact Ha | exact Hb].
Defined.

(** C8: the rewritten list has as many tokens as the input, position by
    position (so in the same order); every output token starts with the two
    characters its input token starts with; a token without the [-I] or [-L]
    prefix is returned as it is, and is still as it is after a second run of
    the rewriter on the result. *)
Theorem C8_rewrite_preserves_shape (h : gmap nat (list string)) (pl : nat)
    (args : list string) (build_dir : string) :
  h !! pl = Some args ->
  exists out out2,
    snd (ArmCompiler.compute_parameters_with_absolute_paths pl build_dir h)
      !! pl = Some out
    /\ snd (ArmCompiler.compute_parameters_with_absolute_paths pl build_dir
              (snd (ArmCompiler.compute_parameters_with_absolute_paths
                      pl build_dir h))) !! pl = Some out2
    /\ length out = length args
    /\ length out2 = length args
    /\ (forall idx tok, args !! idx = Some tok ->
          exists tok' tok'',
            out !! idx = Some tok'
            /\ out2 !! idx = Some tok''
            /\ PyStr.take 2 tok' = PyStr.take 2 tok
            /\ PyStr.take 2 tok'' = PyStr.take 2 tok
            /\ (has_path_prefix tok = false -> tok' = tok /\ tok'' = tok)).
Proof.
  intros Hl.
  exists (rewrite_paths args build_dir),
         (rewrite_paths (rewrite_paths args build_dir) build_dir).
  rewrite (compute_parameters_spec pl build_dir h args Hl). cbn [snd].
  rewrite (compute_parameters_spec pl build_dir _
             (rewrite_paths args build_dir))
    by apply lookup_insert_eq.
  cbn [snd]. rewrite !lookup_insert_eq.
  assert (Hlen : forall a, length (rewrite_paths a build_dir) = length a)
    by (intros a; apply length_fmap).
  rewrite !Hlen. repeat split.
  intros idx tok Htok.
  exists (rewrite_token build_dir tok),
         (rewrite_token build_dir (rewrite_token build_dir tok)).
  pose proof (rewrite_paths_lookup args build_dir idx tok Htok) as H1.
  pose proof (rewrite_paths_lookup _ build_dir idx _ H1) as H2.
  repeat split; try assumption.
  - apply rewrite_token_take2.
  - rewrite !rewrite_token_take2. reflexivity.
  - now apply rewrite_token_unprefixed.
  - rewrite (rewrite_token_unprefixed build_dir tok) by assumption.
    now apply rewrite_token_unprefixed.
Qed.

Lemma C8_rewrite_preserves_shape_witness :
  exists out out2,
    snd (ArmCompiler.compute_parameters_with_absolute_paths 1 "/build"
           (one_list ["-c"; "-Llib"; "main.c"])) !! 1 = Some out
    /\ snd (ArmCompiler.compute_parameters_with_absolute_paths 1 "/build"
              (snd (ArmCompiler.compute_parameters_with_absolute_paths
                      1 "/build" (one_list ["-c"; "-Llib"; "main.c"]))))
         !! 1 = Some out2
    /\ length out = 3
    /\ length out2 = 3.
Proof.
  destruct (C8_rewrite_preserves_shape (one_list ["-c"; "-Llib"; "main.c"]) 1
              ["-c"; "-Llib"; "main.c"] "/build" eq_refl)
    as (out & out2 & H1 & H2 & H3 & H4 & _).
  exists out, out2. repeat split; assumption.
Defined.

(** ** Strings *)

Lemma append_cons (c : ascii) (a b : string) :
  String c a +:+ b = String c (a +:+ b).
Proof. reflexivity. Qed.

Lemma append_nil_l (s : string) : "" +:+ s = s.
Proof. reflexivity. Qed.

Lemma append_nil_r (s : string) : s +:+ "" = s.
Proof.
  induction s as [| c s IH]; [reflexivity |].
  now rewrite append_cons, IH.
Qed.

Lemma append_assoc (a b c : string) : (a +:+ b) +:+ c = a +:+ (b +:+ c).
Proof.
  induction a as [| x a IH]; [reflexivity |].
  now rewrite !append_cons, IH.
Qed.

Lemma span_append (p : ascii -> bool) (s a b : string) :
  PyStr.span p s = (a, b) -> s = a +:+ b.
Proof.
  revert a b. induction s as [| c s IH]; intros a b H; simpl in H.
  - inversion H. reflexivity.
  - destruct (p c).
    + destruct (PyStr.span p s) as [a' b'] eqn:E. inversion H; subst.
      rewrite append_cons. f_equal. now apply IH.
    + inversion H. reflexivity.
Qed.

Lemma span_all (p : ascii -> bool) (s a b : string) :
  PyStr.span p s = (a, b) ->
  forallb p (list_ascii_of_string a) = true.
Proof.
  revert a b. induction s as [| c s IH]; intros a b H; simpl in H.
  - inversion H. reflexivity.
  - destruct (p c) eqn:Hc.
    + destruct (PyStr.span p s) as [a' b'] eqn:E. inversion H; subst.
      simpl. rewrite Hc. simpl. now apply (IH a' b).
    + inversion H. reflexivity.
Qed.

(** A greedy run stops only where the next character does not fit. *)
Lemma span_maximal (p : ascii -> bool) (s a b : string) :
  PyStr.span p s = (a, b) ->
  match b with String c _ => p c = false | EmptyString => True end.
Proof.
  revert a b. induction s as [| c s IH]; intros a b H; simpl in H.
  - inversion H. exact I.
  - destruct (p c) eqn:Hc.
    + destruct (PyStr.span p s) as [a' b'] eqn:E. inversion H; subst.
      now apply (IH a').
    + inversion H; subst. exact Hc.
Qed.

Lemma contains_cons (p : string) (c : ascii) (s : string) :
  PyStr.contains p (String c s) = false -> PyStr.contains p s = false.
Proof.
  cbn [PyStr.contains]. intros H. apply orb_false_iff in H. apply H.
Qed.

Lemma contains_truthy (s : string) :
  PyStr.contains "Component" s = true -> PyStr.truthy s = true.
Proof. destruct s; [discriminate | reflexivity]. Qed.

(** ** The search for the Component line *)

(** What the first [.*] can reach is the first line of the text. *)
Lemma line_prefix_head (s : string) :
  head (PyStr.split PyStr.newline s) = Some (re.line_prefix s).
Proof.
  induction s as [| c s IH]; [reflexivity |].
  cbn [PyStr.split re.line_prefix].
  destruct (Ascii.eqb c PyStr.newline); [reflexivity |].
  destruct (PyStr.split PyStr.newline s) as [| l ls]; [discriminate |].
  cbn in IH. inversion IH. reflexivity.
Qed.

(** When no line of the text contains the word, the search finds nothing. *)
Lemma search_component_None (s : string) :
  Forall (fun line => PyStr.contains "Component" line = false)
         (PyStr.split PyStr.newline s) ->
  re.search_component s = None.
Proof.
  induction s as [| c s IH]; intros Hall.
  - reflexivity.
  - cbn [re.search_component]. unfold re.match_component_at.
    cbn [PyStr.split re.line_prefix] in *.
    destruct (Ascii.eqb c PyStr.newline).
    + apply IH. now apply Forall_inv_tail in Hall.
    + pose proof (line_prefix_head s) as Hhd.
      destruct (PyStr.split PyStr.newline s) as [| l ls]; [discriminate |].
      assert (Hl : l = re.line_prefix s) by (cbn in Hhd; congruence).
      rewrite <- Hl. rewrite (Forall_inv Hall).
      apply IH. apply Forall_cons_2.
      * apply (contains_cons _ c). exact (Forall_inv Hall).
      * exact (Forall_inv_tail Hall).
Qed.

(** The search returns the first line that contains the word. *)
Lemma search_component_first_line (s : string) :
  forall before line after,
    PyStr.split PyStr.newline s = before ++ line :: after ->
    Forall (fun l => PyStr.contains "Component" l = false) before ->
    PyStr.contains "Component" line = true ->
    re.search_component s = Some line.
Proof.
  induction s as [| c s IH]; intros before line after Hsplit Hbefore Hline.
  - destruct before as [| b before]; cbn in Hsplit.
    + injection Hsplit as <- _. discriminate.
    + injection Hsplit as _ Habs. now destruct before.
  - cbn [re.search_component]. unfold re.match_component_at.
    cbn [PyStr.split re.line_prefix] in *.
    destruct (Ascii.eqb c PyStr.newline).
    + destruct before as [| b before]; cbn in Hsplit.
      * injection Hsplit as <- _. discriminate.
      * injection Hsplit as _ Hsplit.
        change (PyStr.contains "Component" "") with false. cbn iota.
        apply (IH before line after Hsplit); [| exact Hline].
        exact (Forall_inv_tail Hbefore).
    + pose proof (line_prefix_head s) as Hhd.
      destruct (PyStr.split PyStr.newline s) as [| l ls] eqn:Hs;
        [discriminate |].
      assert (Hl : l = re.line_prefix s) by (cbn in Hhd; congruence).
      rewrite <- Hl.
      destruct before as [| b before]; cbn in Hsplit.
      * injection Hsplit as <- _. now rewrite Hline.
      * injection Hsplit as <- Hls.
        rewrite (Forall_inv Hbefore).
        apply (IH (l :: before) line after).
        -- cbn. now rewrite Hls.
        -- apply Forall_cons_2; [| exact (Forall_inv_tail Hbefore)].
           apply (contains_cons _ c). exact (Forall_inv Hbefore).
        -- exact Hline.
Qed.

(** The matched text contains the word, hence is not empty. *)
Lemma search_component_Some (s line : string) :
  re.search_component s = Some line ->
  PyStr.contains "Component" line = true.
Proof.
  induction s as [| c s IH]; cbn [re.search_component];
    unfold re.match_component_at.
  - cbn. discriminate.
  - destruct (PyStr.contains "Component" (re.line_prefix (String c s)))
      eqn:E.
    + intros H. inversion H; subst. exact E.
    + exact IH.
Qed.

(** ** Construction of the armclang mixin *)

Lemma version_compare_eq (v l : string) :
  version_compare v ("==" +:+ l) = String.eqb v l.
Proof. reflexivity. Qed.

(** What the constructor does once the cross-compilation check has passed
    and the linker could be launched: the outcome is decided by the two
    searches and the comparison, and exactly one command was launched. *)
Lemma armclang_init_cross
    (spawn : string -> string -> string + string * string) (st : State)
    (stdo stderr : string) :
  is_cross (self st) = true ->
  spawn "armlink" "--vsn" = inr (stdo, stderr) ->
  fst (ArmclangCompiler.__init__ spawn st)
  = match re.search_component stdo with
    | None => Raise AssertionError
    | Some line =>
        match re.search_version line with
        | None => Raise TypeError
        | Some v =>
            if String.eqb (version (self st)) v then Ok tt
            else Raise (EnvironmentException mismatch_msg)
        end
    end
  /\ launched (snd (ArmclangCompiler.__init__ spawn st))
     = launched st ++ [("armlink", "--vsn")].
Proof.
  intros Hcross Hspawn.
  unfold ArmclangCompiler.__init__, mbind, M_bind, bind, get_self, set_self,
    try_except_OSError, Popen_safe, raise.
  cbn [self launched with_linker_exe linker_exe is_cross version fst snd].
  rewrite Hcross. cbn [negb]. rewrite Hspawn. cbn [fst snd].
  destruct (re.search_component stdo) as [line |] eqn:Hline.
  - apply search_component_Some, contains_truthy in Hline.
    unfold assert_truthy. rewrite Hline. unfold ret, str_concat.
    destruct (re.search_version line) as [v |].
    + unfold ret, raise. rewrite version_compare_eq.
      cbn [self version].
      destruct (String.eqb (version (self st)) v); split; reflexivity.
    + split; reflexivity.
  - split; reflexivity.
Qed.

(** C1: when no line of the captured linker output contains the word
    Component, the constructor does not raise the [EnvironmentException]
    with the text [armlink version string not found]: that exception is
    built but never raised, and the [assert] that follows fails, so the
    construction ends in an [AssertionError]. *)
Theorem C1_no_component_line_raises_AssertionError
    (spawn : string -> string -> string + string * string) (st : State)
    (stdo stderr : string) :
  is_cross (self st) = true ->
  spawn "armlink" "--vsn" = inr (stdo, stderr) ->
  Forall (fun line => PyStr.contains "Component" line = false)
         (PyStr.split PyStr.newline stdo) ->
  fst (ArmclangCompiler.__init__ spawn st) = Raise AssertionError
  /\ fst (ArmclangCompiler.__init__ spawn st)
     <> Raise (EnvironmentException "armlink version string not found").
Proof.
  intros Hcross Hspawn Hlines.
  destruct (armclang_init_cross spawn st stdo stderr Hcross Hspawn) as [-> _].
  rewrite (search_component_None stdo Hlines).
  split; [reflexivity | discriminate].
Qed.

Lemma C1_no_component_line_raises_AssertionError_witness :
  fst (ArmclangCompiler.__init__ (prints "Product: ARM Compiler 6.15")
         (fresh_state true "6.15")) = Raise AssertionError
  /\ fst (ArmclangCompiler.__init__ (prints "Product: ARM Compiler 6.15")
            (fresh_state true "6.15"))
     <> Raise (EnvironmentException "armlink version string not found").
Proof.
  apply (C1_no_component_line_raises_AssertionError
           (prints "Product: ARM Compiler 6.15") (fresh_state true "6.15")
           "Product: ARM Compiler 6.15" "").
  - reflexivity.
  - reflexivity.
  - vm_compute. apply Forall_cons_2; [reflexivity | apply Forall_nil_2].
Defined.

(** C2, as stated, fails twice.  With linker version 6.4 and compiler
    version 6.15 the exception raised carries a fixed text that names
    neither version; and when the Component line holds no version token the
    construction ends in a [TypeError], not in a version-mismatch error. *)
Lemma C2_counterexample :
  (re.search_version "Component: ARM Compiler 6.4 Tool: armlink" = Some "6.4"
   /\ fst (ArmclangCompiler.__init__
            (prints "Component: ARM Compiler 6.4 Tool: armlink")
            (fresh_state true "6.15"))
     = Raise (EnvironmentException mismatch_msg)
   /\ PyStr.contains "6.4" mismatch_msg = false
   /\ PyStr.contains "6.15" mismatch_msg = false)
  /\ (re.search_version "Component: ARM Compiler" = None
      /\ fst (ArmclangCompiler.__init__
               (prints "Component: ARM Compiler")
               (fresh_state true "6.15"))
        = Raise TypeError).
Proof. repeat split; vm_compute; reflexivity. Qed.

(** C2, amended: once the linker has answered and a Component line was
    found, the construction succeeds exactly when the version token
    extracted from that line is equal, as a string, to the compiler's own
    version; when a token is extracted and differs, the construction raises
    the [EnvironmentException] with the fixed text
    [armlink version does not match with compiler version]. *)
Theorem C2_version_check
    (spawn : string -> string -> string + string * string) (st : State)
    (stdo stderr line : string) :
  is_cross (self st) = true ->
  spawn "armlink" "--vsn" = inr (stdo, stderr) ->
  re.search_component stdo = Some line ->
  (fst (ArmclangCompiler.__init__ spawn st) = Ok tt
   <-> re.search_version line = Some (version (self st)))
  /\ (forall v, re.search_version line = Some v ->
        v <> version (self st) ->
        fst (ArmclangCompiler.__init__ spawn st)
        = Raise (EnvironmentException mismatch_msg)).
Proof.
  intros Hcross Hspawn Hline.
  destruct (armclang_init_cross spawn st stdo stderr Hcross Hspawn) as [-> _].
  rewrite Hline.
  destruct (re.search_version line) as [v |]; split.
  - destruct (String.eqb_spec (version (self st)) v) as [Heq | Hne];
      split; intros H; try reflexivity; try discriminate; congruence.
  - intros v' Hv' Hne.
    destruct (String.eqb_spec (version (self st)) v) as [Heq | _];
      [congruence | reflexivity].
  - split; discriminate.
  - discriminate.
Qed.

Lemma C2_version_check_witness :
  (fst (ArmclangCompiler.__init__
          (prints "Component: ARM Compiler 6.15 Tool: armlink")
          (fresh_state true "6.15")) = Ok tt
   <-> re.search_version "Component: ARM Compiler 6.15 Tool: armlink"
       = Some "6.15")
  /\ (forall v,
        re.search_version "Component: ARM Compiler 6.15 Tool: armlink"
        = Some v ->
        v <> "6.15" ->
        fst (ArmclangCompiler.__init__
               (prints "Component: ARM Compiler 6.15 Tool: armlink")
               (fresh_state true "6.15"))
        = Raise (EnvironmentException mismatch_msg)).
Proof.
  apply (C2_version_check
           (prints "Component: ARM Compiler 6.15 Tool: armlink")
           (fresh_state true "6.15")
           "Component: ARM Compiler 6.15 Tool: armlink" ""
           "Component: ARM Compiler 6.15 Tool: armlink").
  - reflexivity.
  - reflexivity.
  - vm_compute. reflexivity.
Defined.

(** The two fixtures of the specification: linker 6.4 against compiler 6.15
    is rejected, 6.15 against 6.15 is accepted. *)
Example armclang_init_fixtures :
  fst (ArmclangCompiler.__init__
         (prints "Component: ARM Compiler 6.4 Tool: armlink")
         (fresh_state true "6.15"))
  = Raise (EnvironmentException mismatch_msg)
  /\ fst (ArmclangCompiler.__init__
            (prints "Component: ARM Compiler 6.15 Tool: armlink")
            (fresh_state true "6.15")) = Ok tt.
Proof. split; vm_compute; reflexivity. Qed.

(** A linker that cannot be launched: the [OSError] is turned into an
    [EnvironmentException] naming the command and the system's message. *)
Lemma armclang_init_unavailable (st : State) (e : string) :
  is_cross (self st) = true ->
  fst (ArmclangCompiler.__init__ (unavailable e) st)
  = Raise (EnvironmentException
             (ArmclangCompiler.err_msg "armlink --vsn" e)).
Proof.
  intros Hcross.
  unfold ArmclangCompiler.__init__, mbind, M_bind, bind, get_self, set_self,
    try_except_OSError, Popen_safe, raise, unavailable.
  cbn [self launched with_linker_exe linker_exe is_cross version fst snd].
  rewrite Hcross. reflexivity.
Qed.

(** ** The search for the version token *)

Lemma dot_digits_shape (s g r : string) :
  re.dot_digits s = Some (g, r) ->
  exists d ds, g = String "." (String d ds)
               /\ PyStr.is_digit d = true /\ s = g +:+ r.
Proof.
  destruct s as [| c s]; [discriminate |]. cbn [re.dot_digits].
  destruct (Ascii.eqb_spec c ".") as [-> |]; [| discriminate].
  destruct (PyStr.span PyStr.is_digit s) as [ds r'] eqn:Hspan.
  destruct ds as [| d ds]; [discriminate |]. cbn [PyStr.truthy].
  intros [= <- <-].
  exists d, ds. repeat split.
  - pose proof (span_all _ _ _ _ Hspan) as Hall. cbn in Hall.
    now apply andb_true_iff in Hall.
  - rewrite append_cons. f_equal. exact (span_append _ _ _ _ Hspan).
Qed.

Lemma dot_digits_star_append (fuel : nat) :
  forall s gs r, re.dot_digits_star fuel s = (gs, r) -> s = gs +:+ r.
Proof.
  induction fuel as [| fuel IH]; intros s gs r; cbn [re.dot_digits_star].
  - intros [= <- <-]. reflexivity.
  - destruct (re.dot_digits s) as [[g r1] |] eqn:Hg.
    + destruct (re.dot_digits_star fuel r1) as [gs' r'] eqn:Hstar.
      intros [= <- <-].
      apply dot_digits_shape in Hg as (_ & _ & _ & _ & ->).
      rewrite append_assoc. f_equal. now apply IH.
    + intros [= <- <-]. reflexivity.
Qed.

Lemma dash_tag_append (s t r : string) :
  re.dash_tag s = (t, r) -> s = t +:+ r.
Proof.
  destruct s as [| c s]; cbn [re.dash_tag].
  - intros [= <- <-]. reflexivity.
  - destruct (Ascii.eqb c "-").
    + destruct (PyStr.span PyStr.is_alnum s) as [a r'] eqn:Hspan.
      destruct (PyStr.truthy a); intros [= <- <-]; [| reflexivity].
      rewrite append_cons. f_equal. exact (span_append _ _ _ _ Hspan).
    + intros [= <- <-]. reflexivity.
Qed.

Lemma length_append (a b : string) :
  String.length (a +:+ b) = String.length a + String.length b.
Proof.
  induction a as [| c a IH]; [reflexivity |].
  rewrite append_cons. cbn [String.length]. now rewrite IH.
Qed.

(** The fuel given to the greedy repetition is enough: where it stops, no
    further round fits. *)
Lemma dot_digits_star_maximal (fuel : nat) :
  forall s gs r,
    String.length s <= fuel ->
    re.dot_digits_star fuel s = (gs, r) ->
    re.dot_digits r = None.
Proof.
  induction fuel as [| fuel IH]; intros s gs r Hlen;
    cbn [re.dot_digits_star].
  - intros [= <- <-]. destruct s; [reflexivity | cbn in Hlen; lia].
  - destruct (re.dot_digits s) as [[g r1] |] eqn:Hg.
    + destruct (re.dot_digits_star fuel r1) as [gs' r'] eqn:Hstar.
      intros [= <- <-].
      apply (IH r1 gs' r'); [| exact Hstar].
      apply dot_digits_shape in Hg as (d & ds & -> & _ & ->).
      rewrite length_append in Hlen. cbn [String.length] in Hlen. lia.
    + intros [= <- <-]. exact Hg.
Qed.

Lemma match_version_tail_shape (s t : string) :
  re.match_version_tail s = Some t ->
  exists d rest post,
    t = String "." (String d rest)
    /\ PyStr.is_digit d = true /\ s = t +:+ post.
Proof.
  unfold re.match_version_tail.
  destruct (re.dot_digits s) as [[g r] |] eqn:Hg; [| discriminate].
  destruct (re.dot_digits_star (String.length r) r) as [gs r'] eqn:Hstar.
  destruct (re.dash_tag r') as [tag post] eqn:Htag.
  intros [= <-].
  apply dot_digits_shape in Hg as (d & ds & -> & Hd & ->).
  apply dot_digits_star_append in Hstar as ->.
  apply dash_tag_append in Htag as ->.
  exists d, (ds +:+ gs +:+ tag), post. repeat split.
  - exact Hd.
  - now rewrite !append_cons, !append_assoc.
Qed.

(** An anchored match starts with one or two digits and a dot. *)
Lemma match_version_at_shape (s m : string) :
  re.match_version_at s = Some m ->
  exists major d rest post,
    m = major +:+ String "." (String d rest)
    /\ (String.length major = 1 \/ String.length major = 2)
    /\ all_digits major = true
    /\ PyStr.is_digit d = true
    /\ s = m +:+ post.
Proof.
  unfold re.match_version_at.
  destruct s as [| d1 s1]; [discriminate |].
  assert (Hone :
    (if PyStr.is_digit d1
     then match re.match_version_tail s1 with
          | Some t => Some (String d1 t)
          | None => None
          end
     else None) = Some m ->
    exists major d rest post,
      m = major +:+ String "." (String d rest)
      /\ (String.length major = 1 \/ String.length major = 2)
      /\ all_digits major = true
      /\ PyStr.is_digit d = true
      /\ String d1 s1 = m +:+ post).
  { destruct (PyStr.is_digit d1) eqn:Hd1; [| discriminate].
    destruct (re.match_version_tail s1) as [t |] eqn:Ht; [| discriminate].
    intros [= <-].
    apply match_version_tail_shape in Ht as (d & rest & post & -> & Hd & ->).
    exists (String d1 ""), d, rest, post. repeat split.
    - now left.
    - cbn. now rewrite Hd1.
    - exact Hd. }
  destruct s1 as [| d2 s2]; [exact Hone |].
  destruct (PyStr.is_digit d1 && PyStr.is_digit d2) eqn:Hd12;
    [| exact Hone].
  destruct (re.match_version_tail s2) as [t |] eqn:Ht; [| exact Hone].
  intros [= <-].
  apply match_version_tail_shape in Ht as (d & rest & post & -> & Hd & ->).
  exists (String d1 (String d2 "")), d, rest, post. repeat split.
  - now right.
  - cbn. rewrite andb_true_r. exact Hd12.
  - exact Hd.
Qed.

(** The token found by the search sits in the text, after a position where
    the lookbehind holds, and is an anchored match there. *)
Lemma search_version_from_shape (s : string) :
  forall prev m,
    re.search_version_from prev s = Some m ->
    exists pre post,
      s = pre +:+ m +:+ post
      /\ re.lookbehind_ok (last_char prev pre) = true
      /\ re.match_version_at (m +:+ post) = Some m.
Proof.
  induction s as [| c s IH]; intros prev m; cbn [re.search_version_from].
  - destruct (re.lookbehind_ok prev) eqn:Hlb; [| discriminate].
    destruct (re.match_version_at "") eqn:Hm; [| discriminate].
    discriminate.
  - assert (Hrest : re.search_version_from (Some c) s = Some m ->
      exists pre post,
        String c s = pre +:+ m +:+ post
        /\ re.lookbehind_ok (last_char prev pre) = true
        /\ re.match_version_at (m +:+ post) = Some m).
    { intros H. apply IH in H as (pre & post & -> & Hlb & Hm).
      exists (String c pre), post. repeat split; assumption. }
    destruct (re.lookbehind_ok prev) eqn:Hlb; [| exact Hrest].
    destruct (re.match_version_at (String c s)) as [m' |] eqn:Hm;
      [| exact Hrest].
    intros [= <-].
    pose proof Hm as Hshape.
    apply match_version_at_shape in Hshape
      as (_ & _ & _ & post & _ & _ & _ & _ & Hs).
    exists "", post. rewrite append_nil_l. repeat split.
    + exact Hs.
    + exact Hlb.
    + rewrite <- Hs. exact Hm.
Qed.

(** A run of digits before a dot is determined by the text. *)
Lemma digits_before_dot_unique (a b x y : string) :
  all_digits a = true -> all_digits b = true ->
  a +:+ String "." x = b +:+ String "." y -> a = b.
Proof.
  revert b. induction a as [| c a IH]; intros [| c' b] Ha Hb Heq.
  - reflexivity.
  - rewrite append_nil_l, append_cons in Heq. injection Heq as <- _.
    cbn in Hb. discriminate.
  - rewrite append_nil_l, append_cons in Heq. injection Heq as -> _.
    cbn in Ha. discriminate.
  - rewrite !append_cons in Heq. injection Heq as -> Heq.
    cbn in Ha, Hb. apply andb_true_iff in Ha as [_ Ha].
    apply andb_true_iff in Hb as [_ Hb].
    f_equal. now apply IH.
Qed.

(** C10: a token extracted from the Component line starts with a major
    component of one or two digits followed by a dot and a digit, and stands
    in the line where it is not immediately preceded by a digit or a dot;
    hence a token read as a run of digits and a dot never has more than two
    digits in that run: a version with a major component of three or more
    digits is never extracted. *)
Theorem C10_version_token_major (line tok : string) :
  re.search_version line = Some tok ->
  exists pre major d rest post,
    line = pre +:+ tok +:+ post
    /\ tok = major +:+ "." +:+ String d rest
    /\ (String.length major = 1 \/ String.length major = 2)
    /\ all_digits major = true
    /\ PyStr.is_digit d = true
    /\ (forall c, last_char None pre = Some c ->
          PyStr.is_digit c = false /\ c <> "."%char)
    /\ (forall ds rest', all_digits ds = true ->
          tok = ds +:+ "." +:+ rest' -> String.length ds <= 2).
Proof.
  unfold re.search_version. intros Hsearch.
  apply search_version_from_shape in Hsearch as (pre & post & -> & Hlb & Hm).
  apply match_version_at_shape in Hm
    as (major & d & rest & _ & Htok & Hlen & Hdig & Hd & _).
  exists pre, major, d, rest, post.
  split; [reflexivity |]. split; [exact Htok |].
  split; [exact Hlen |]. split; [exact Hdig |]. split; [exact Hd |].
  split.
  - intros c Hc. rewrite Hc in Hlb. cbn [re.lookbehind_ok] in Hlb.
    apply negb_true_iff, orb_false_iff in Hlb as [Hnd Hndot].
    split; [exact Hnd |]. now apply Ascii.eqb_neq.
  - intros ds rest' Hds Htok'.
    assert (ds = major) as ->.
    { apply (digits_before_dot_unique ds major rest' (String d rest));
        [assumption | assumption |].
      transitivity tok; [symmetry; exact Htok' | exact Htok]. }
    lia.
Qed.

Lemma C10_version_token_major_witness :
  exists pre major d rest post,
    "Component: ARM Compiler 6.15 Tool: armlink" = pre +:+ "6.15" +:+ post
    /\ "6.15" = major +:+ "." +:+ String d rest
    /\ (String.length major = 1 \/ String.length major = 2).
Proof.
  destruct (C10_version_token_major
              "Component: ARM Compiler 6.15 Tool: armlink" "6.15" eq_refl)
    as (pre & major & d & rest & post & H1 & H2 & H3 & _).
  exists pre, major, d, rest, post. repeat split; assumption.
Defined.

(** Versions with a major component of three digits are passed over, also
    when a shorter dotted number could be cut out of them. *)
Example search_version_three_digit_major :
  re.search_version "123.4" = None
  /\ re.search_version "Component: ARM Compiler 123.4 Tool: armlink" = None
  /\ re.search_version "Component: ARM Compiler 1234.56.7" = None
  /\ re.search_version "Component: build 123.45 of ARM Compiler 6.15"
     = Some "6.15".
Proof. repeat split; vm_compute; reflexivity. Qed.

(** * Further properties of the module *)

(** ** Keys outside the vocabularies *)

(** The two optimization tables have exactly the six keys of the
    vocabulary. *)
Lemma optimization_tables_closed (k : string) :
  (is_Some (arm_optimization_args !! k) <-> k ∈ optimization_keys)
  /\ (is_Some (armclang_optimization_args !! k) <-> k ∈ optimization_keys).
Proof.
  unfold arm_optimization_args, armclang_optimization_args, optimization_keys.
  split; rewrite <- elem_of_dom, dom_list_to_map_L; simpl; set_solver.
Qed.

(** A dictionary lookup that raises [KeyError] on a missing key. *)
Lemma lookup_or_KeyError (table : gmap string (list string)) (k : string) :
  ((is_Some (table !! k)
    <-> exists l, match table !! k with
                  | Some l => Ok l
                  | None => Raise (KeyError k)
                  end = Ok l)
   /\ (~ is_Some (table !! k)
       <-> match table !! k with
           | Some l => Ok l
           | None => Raise (KeyError k)
           end = Raise (KeyError k))).
Proof.
  destruct (table !! k) as [l |]; split; split.
  - intros _. now exists l.
  - intros _. now exists l.
  - intros H. exfalso. apply H. now exists l.
  - discriminate.
  - intros [l Hl]. discriminate.
  - intros [l Hl]. discriminate.
  - reflexivity.
  - intros _ [l Hl]. discriminate.
Qed.

(** X1: [get_buildtype_args] answers exactly the six build-type keys; on
    any other key both families raise [KeyError] carrying that key. *)
Theorem X1_buildtype_args_KeyError (k : string) :
  (k ∈ buildtype_keys <-> exists l, ArmCompiler.get_buildtype_args k = Ok l)
  /\ (k ∉ buildtype_keys
      <-> ArmCompiler.get_buildtype_args k = Raise (KeyError k))
  /\ (k ∈ buildtype_keys
      <-> exists l, ArmclangCompiler.get_buildtype_args k = Ok l)
  /\ (k ∉ buildtype_keys
      <-> ArmclangCompiler.get_buildtype_args k = Raise (KeyError k)).
Proof.
  destruct (buildtype_tables_closed k) as [Ha Hb].
  destruct (lookup_or_KeyError arm_buildtype_args k) as [Ha1 Ha2].
  destruct (lookup_or_KeyError armclang_buildtype_args k) as [Hb1 Hb2].
  unfold ArmCompiler.get_buildtype_args, ArmclangCompiler.get_buildtype_args.
  rewrite <- Ha1, <- Ha2, <- Hb1, <- Hb2, Ha, Hb. tauto.
Qed.

(** X2: [get_optimization_args] answers exactly the six optimization keys;
    on any other key both families raise [KeyError] carrying that key. *)
Theorem X2_optimization_args_KeyError (k : string) :
  (k ∈ optimization_keys
   <-> exists l, ArmCompiler.get_optimization_args k = Ok l)
  /\ (k ∉ optimization_keys
      <-> ArmCompiler.get_optimization_args k = Raise (KeyError k))
  /\ (k ∈ optimization_keys
      <-> exists l, ArmclangCompiler.get_optimization_args k = Ok l)
  /\ (k ∉ optimization_keys
      <-> ArmclangCompiler.get_optimization_args k = Raise (KeyError k)).
Proof.
  destruct (optimization_tables_closed k) as [Ha Hb].
  destruct (lookup_or_KeyError arm_optimization_args k) as [Ha1 Ha2].
  destruct (lookup_or_KeyError armclang_optimization_args k) as [Hb1 Hb2].
  unfold ArmCompiler.get_optimization_args,
    ArmclangCompiler.get_optimization_args.
  rewrite <- Ha1, <- Ha2, <- Hb1, <- Hb2, Ha, Hb. tauto.
Qed.

(** ** The two families side by side *)

(** X3: the two families give the same answer to [get_optimization_args],
    a list or a [KeyError], on every key except s, where they differ. *)
Theorem X3_optimization_args_families_agree (k : string) :
  ArmCompiler.get_optimization_args k
  = ArmclangCompiler.get_optimization_args k
  <-> k <> "s".
Proof.
  destruct (decide (k ∈ optimization_keys)) as [Hin | Hout].
  - unfold optimization_keys in Hin.
    repeat (apply elem_of_cons in Hin as [-> | Hin]);
      try (split; [intros _; discriminate | reflexivity]).
    + split; [discriminate | congruence].
    + now apply elem_of_nil in Hin.
  - destruct (optimization_tables_closed k) as [Ha Hb].
    unfold ArmCompiler.get_optimization_args,
      ArmclangCompiler.get_optimization_args.
    destruct (arm_optimization_args !! k) as [l |] eqn:Ea;
      [exfalso; apply Hout, Ha; now exists l |].
    destruct (armclang_optimization_args !! k) as [l |] eqn:Eb;
      [exfalso; apply Hout, Hb; now exists l |].
    split; [| reflexivity].
    intros _ Hs. apply Hout. rewrite Hs. unfold optimization_keys.
    rewrite !elem_of_cons. tauto.
Qed.

(** ** The rewriter on lists without path flags *)

Lemma rewrite_paths_unprefixed (args : list string) (build_dir : string) :
  Forall (fun tok => has_path_prefix tok = false) args ->
  rewrite_paths args build_dir = args.
Proof.
  unfold rewrite_paths. induction 1 as [| tok args Htok _ IH].
  - reflexivity.
  - rewrite fmap_cons, IH, (rewrite_token_unprefixed _ _ Htok). reflexivity.
Qed.

(** No list of the four flag tables holds a token with a path prefix. *)
Lemma flag_tables_unprefixed (k : string) (l : list string) :
  arm_buildtype_args !! k = Some l
  \/ arm_optimization_args !! k = Some l
  \/ armclang_buildtype_args !! k = Some l
  \/ armclang_optimization_args !! k = Some l ->
  Forall (fun tok => has_path_prefix tok = false) l.
Proof.
  unfold arm_buildtype_args, arm_optimization_args, armclang_buildtype_args,
    armclang_optimization_args.
  intros [H | [H | [H | H]]];
    apply elem_of_list_to_map_2 in H;
    repeat (apply elem_of_cons in H as [[= _ ->] | H]);
    try (now apply elem_of_nil in H);
    repeat (apply Forall_cons_2; [reflexivity |]); apply Forall_nil_2.
Qed.

(** X4: on a list in which no token starts with [-I] or [-L], empty lists
    included, the rewriter changes nothing: the heap after the call is the
    heap before it, whatever the base directory. *)
Theorem X4_rewriter_noop_without_path_flags (h : gmap nat (list string))
    (pl : nat) (args : list string) (build_dir : string) :
  h !! pl = Some args ->
  Forall (fun tok => has_path_prefix tok = false) args ->
  ArmCompiler.compute_parameters_with_absolute_paths pl build_dir h = (pl, h)
  /\ ArmclangCompiler.compute_parameters_with_absolute_paths pl build_dir h
     = (pl, h).
Proof.
  intros Hl Hargs. rewrite armclang_rewriter_same.
  rewrite (compute_parameters_spec pl build_dir h args Hl).
  rewrite (rewrite_paths_unprefixed args build_dir Hargs).
  rewrite (insert_id h pl args Hl). split; reflexivity.
Qed.

Lemma X4_rewriter_noop_without_path_flags_witness :
  ArmCompiler.compute_parameters_with_absolute_paths 1 "/build"
    (one_list ["-c"; "main.c"; "-o"; "main.o"])
  = (1, one_list ["-c"; "main.c"; "-o"; "main.o"])
  /\ ArmclangCompiler.compute_parameters_with_absolute_paths 1 "/build"
       (one_list ["-c"; "main.c"; "-o"; "main.o"])
     = (1, one_list ["-c"; "main.c"; "-o"; "main.o"]).
Proof.
  apply (X4_rewriter_noop_without_path_flags
           (one_list ["-c"; "main.c"; "-o"; "main.o"]) 1
           ["-c"; "main.c"; "-o"; "main.o"] "/build").
  - reflexivity.
  - repeat (apply Forall_cons_2; [reflexivity |]). apply Forall_nil_2.
Defined.

(** X5: the lists that [get_buildtype_args] and [get_optimization_args]
    return are the lists of the module-level tables; handing any of them to
    the in-place rewriter leaves it as it is, so the rewriter cannot alter
    the flag tables. *)
Theorem X5_rewriter_keeps_flag_tables (k : string) (l : list string)
    (h : gmap nat (list string)) (pl : nat) (build_dir : string) :
  ArmCompiler.get_buildtype_args k = Ok l
  \/ ArmCompiler.get_optimization_args k = Ok l
  \/ ArmclangCompiler.get_buildtype_args k = Ok l
  \/ ArmclangCompiler.get_optimization_args k = Ok l ->
  h !! pl = Some l ->
  ArmCompiler.compute_parameters_with_absolute_paths pl build_dir h = (pl, h)
  /\ ArmclangCompiler.compute_parameters_with_absolute_paths pl build_dir h
     = (pl, h).
Proof.
  intros Hget Hl.
  assert (Hun : Forall (fun tok => has_path_prefix tok = false) l).
  { apply (flag_tables_unprefixed k).
    unfold ArmCompiler.get_buildtype_args, ArmCompiler.get_optimization_args,
      ArmclangCompiler.get_buildtype_args,
      ArmclangCompiler.get_optimization_args in Hget.
    destruct (arm_buildtype_args !! k), (arm_optimization_args !! k),
      (armclang_buildtype_args !! k), (armclang_optimization_args !! k);
      intuition congruence. }
  rewrite armclang_rewriter_same.
  rewrite (compute_parameters_spec pl build_dir h l Hl).
  rewrite (rewrite_paths_unprefixed l build_dir Hun).
  rewrite (insert_id h pl l Hl). split; reflexivity.
Qed.

Lemma X5_rewriter_keeps_flag_tables_witness :
  ArmCompiler.compute_parameters_with_absolute_paths 1 "/build"
    (one_list ["-O3"; "-Ospace"])
  = (1, one_list ["-O3"; "-Ospace"])
  /\ ArmclangCompiler.compute_parameters_with_absolute_paths 1 "/build"
       (one_list ["-O3"; "-Ospace"])
     = (1, one_list ["-O3"; "-Ospace"]).
Proof.
  apply (X5_rewriter_keeps_flag_tables "minsize" ["-O3"; "-Ospace"]
           (one_list ["-O3"; "-Ospace"]) 1 "/build").
  - left. reflexivity.
  - reflexivity.
Defined.

(** ** Construction of the armclang mixin, state included *)

(** The whole run of the constructor once the cross-compilation check has
    passed: result and final state, by cases on what the system answers. *)
Lemma armclang_init_run
    (spawn : string -> string -> string + string * string) (st : State) :
  is_cross (self st) = true ->
  ArmclangCompiler.__init__ spawn st
  = match spawn "armlink" "--vsn" with
    | inl e =>
        (Raise (EnvironmentException
                  (ArmclangCompiler.err_msg "armlink --vsn" e)),
         after_launch st)
    | inr out =>
        match re.search_component (fst out) with
        | None => (Raise AssertionError, after_launch st)
        | Some line =>
            match re.search_version line with
            | None => (Raise TypeError, after_launch st)
            | Some v =>
                if String.eqb (version (self st)) v
                then (Ok tt,
                      mkState
                        (add_suffix "s"
                           (with_base_options armclang_base_options
                              (with_id "armclang"
                                 (self (after_launch st)))))
                        (launched (after_launch st)))
                else (Raise (EnvironmentException mismatch_msg),
                      after_launch st)
            end
        end
    end.
Proof.
  intros Hcross.
  unfold ArmclangCompiler.__init__, mbind, M_bind, bind, get_self, set_self,
    try_except_OSError, Popen_safe, raise, after_launch.
  cbn [self launched with_linker_exe linker_exe is_cross version fst snd].
  rewrite Hcross. cbn [negb].
  destruct (spawn "armlink" "--vsn") as [e | out]; [reflexivity |].
  destruct (re.search_component (fst out)) as [line |] eqn:Hline;
    [| reflexivity].
  apply search_component_Some, contains_truthy in Hline.
  unfold assert_truthy. rewrite Hline. unfold ret, str_concat.
  destruct (re.search_version line) as [v |]; [| reflexivity].
  unfold ret, raise. rewrite version_compare_eq.
  cbn [self version].
  destruct (String.eqb (version (self st)) v); reflexivity.
Qed.

Lemma startswith_append (p b : string) : PyStr.startswith p (p +:+ b) = true.
Proof.
  induction p as [| c p IH]; [reflexivity |].
  rewrite append_cons. cbn [PyStr.startswith].
  now rewrite Ascii.eqb_refl, IH.
Qed.

Lemma contains_here (p s : string) :
  PyStr.startswith p s = true -> PyStr.contains p s = true.
Proof. intros H. destruct s; cbn [PyStr.contains]; now rewrite H. Qed.

Lemma contains_append_l (p a s : string) :
  PyStr.contains p s = true -> PyStr.contains p (a +:+ s) = true.
Proof.
  intros H. induction a as [| c a IH]; [exact H |].
  rewrite append_cons. cbn [PyStr.contains]. rewrite IH.
  apply orb_true_r.
Qed.

Lemma contains_infix (p a b : string) :
  PyStr.contains p (a +:+ p +:+ b) = true.
Proof. apply contains_append_l, contains_here, startswith_append. Qed.

(** The message of a failed launch, cut at its two holes. *)
Lemma err_msg_shape (cmd e : string) :
  ArmclangCompiler.err_msg cmd e
  = ("Unknown linker" +:+ String PyStr.newline "Running "
     +:+ String PyStr.dquote "")
    +:+ cmd
    +:+ (String PyStr.dquote " gave "
         +:+ String PyStr.newline (String PyStr.dquote ""))
    +:+ e +:+ String PyStr.dquote "".
Proof.
  unfold ArmclangCompiler.err_msg.
  rewrite !append_assoc, !append_cons, !append_nil_l. reflexivity.
Qed.

(** X6: whenever the cross-compilation check passes, the constructor hands
    exactly one command to the system, [armlink --vsn], whether the
    construction then succeeds or fails, and [linker_exe] is [armlink]
    afterwards. *)
Theorem X6_armclang_launches_exactly_once
    (spawn : string -> string -> string + string * string) (st : State) :
  is_cross (self st) = true ->
  launched (snd (ArmclangCompiler.__init__ spawn st))
  = launched st ++ [("armlink", "--vsn")]
  /\ linker_exe (self (snd (ArmclangCompiler.__init__ spawn st))) = "armlink".
Proof.
  intros Hcross. rewrite (armclang_init_run spawn st Hcross).
  destruct (spawn "armlink" "--vsn") as [e | out]; [split; reflexivity |].
  destruct (re.search_component (fst out)) as [line |];
    [| split; reflexivity].
  destruct (re.search_version line) as [v |]; [| split; reflexivity].
  destruct (String.eqb (version (self st)) v); split; reflexivity.
Qed.

Lemma X6_armclang_launches_exactly_once_witness :
  launched (snd (ArmclangCompiler.__init__ (unavailable "not found")
                   (fresh_state true "6.15")))
  = launched (fresh_state true "6.15") ++ [("armlink", "--vsn")]
  /\ linker_exe (self (snd (ArmclangCompiler.__init__
                             (unavailable "not found")
                             (fresh_state true "6.15")))) = "armlink".
Proof.
  apply (X6_armclang_launches_exactly_once (unavailable "not found")
           (fresh_state true "6.15")).
  reflexivity.
Defined.

(** X7: when the linker cannot be launched, the [OSError] does not escape:
    the constructor raises an [EnvironmentException] whose message starts
    with [Unknown linker] and contains both the command line
    [armlink --vsn] and the text of the system error. *)
Theorem X7_armclang_linker_unavailable
    (spawn : string -> string -> string + string * string) (st : State)
    (e : string) :
  is_cross (self st) = true ->
  spawn "armlink" "--vsn" = inl e ->
  exists msg,
    fst (ArmclangCompiler.__init__ spawn st)
    = Raise (EnvironmentException msg)
    /\ PyStr.startswith "Unknown linker" msg = true
    /\ PyStr.contains "armlink --vsn" msg = true
    /\ PyStr.contains e msg = true.
Proof.
  intros Hcross Hspawn. rewrite (armclang_init_run spawn st Hcross), Hspawn.
  exists (ArmclangCompiler.err_msg "armlink --vsn" e).
  split; [reflexivity |]. split; [reflexivity |].
  rewrite err_msg_shape. split.
  - apply contains_infix.
  - rewrite <- !append_assoc. rewrite (append_assoc _ e _).
    apply contains_infix.
Qed.

Lemma X7_armclang_linker_unavailable_witness :
  exists msg,
    fst (ArmclangCompiler.__init__ (unavailable "No such file or directory")
           (fresh_state true "6.15"))
    = Raise (EnvironmentException msg)
    /\ PyStr.startswith "Unknown linker" msg = true
    /\ PyStr.contains "armlink --vsn" msg = true
    /\ PyStr.contains "No such file or directory" msg = true.
Proof.
  apply (X7_armclang_linker_unavailable
           (unavailable "No such file or directory")
           (fresh_state true "6.15") "No such file or directory").
  - reflexivity.
  - reflexivity.
Defined.

Lemma armclang_init_not_cross
    (spawn : string -> string -> string + string * string) (st : State) :
  is_cross (self st) = false ->
  ArmclangCompiler.__init__ spawn st
  = (Raise (EnvironmentException
              "armclang supports only cross-compilation."), st).
Proof.
  intros Hcross.
  unfold ArmclangCompiler.__init__, mbind, M_bind, bind, get_self, raise.
  cbn [self]. rewrite Hcross. reflexivity.
Qed.

(** X8: a successful construction leaves an object whose [id] is
    [armclang], whose [base_options] are the eight options of the class,
    whose [linker_exe] is [armlink] and whose set of compilable suffixes is
    the former set with [s] added; [version], [is_cross] and [warn_args]
    are untouched. *)
Theorem X8_armclang_constructed_object
    (spawn : string -> string -> string + string * string) (st : State) :
  fst (ArmclangCompiler.__init__ spawn st) = Ok tt ->
  id (self (snd (ArmclangCompiler.__init__ spawn st))) = "armclang"
  /\ base_options (self (snd (ArmclangCompiler.__init__ spawn st)))
     = ["b_pch"; "b_lto"; "b_pgo"; "b_sanitize"; "b_coverage";
        "b_ndebug"; "b_staticpic"; "b_colorout"]
  /\ linker_exe (self (snd (ArmclangCompiler.__init__ spawn st)))
     = "armlink"
  /\ can_compile_suffixes (self (snd (ArmclangCompiler.__init__ spawn st)))
     = {["s"]} ∪ can_compile_suffixes (self st)
  /\ version (self (snd (ArmclangCompiler.__init__ spawn st)))
     = version (self st)
  /\ is_cross (self (snd (ArmclangCompiler.__init__ spawn st))) = true
  /\ warn_args (self (snd (ArmclangCompiler.__init__ spawn st)))
     = warn_args (self st).
Proof.
  destruct (is_cross (self st)) eqn:Hcross.
  - rewrite (armclang_init_run spawn st Hcross).
    destruct (spawn "armlink" "--vsn") as [e | out]; [discriminate |].
    destruct (re.search_component (fst out)) as [line |]; [| discriminate].
    destruct (re.search_version line) as [v |]; [| discriminate].
    destruct (String.eqb (version (self st)) v); [| discriminate].
    intros _. cbn. rewrite Hcross. repeat split.
  - rewrite (armclang_init_not_cross spawn st Hcross). discriminate.
Qed.

Lemma X8_armclang_constructed_object_witness :
  id (self (snd (ArmclangCompiler.__init__
                   (prints "Component: ARM Compiler 6.15 Tool: armlink")
                   (fresh_state true "6.15")))) = "armclang"
  /\ can_compile_suffixes
       (self (snd (ArmclangCompiler.__init__
                     (prints "Component: ARM Compiler 6.15 Tool: armlink")
                     (fresh_state true "6.15"))))
     = {["s"]} ∪ can_compile_suffixes (self (fresh_state true "6.15")).
Proof.
  destruct (X8_armclang_constructed_object
              (prints "Component: ARM Compiler 6.15 Tool: armlink")
              (fresh_state true "6.15"))
    as (H1 & _ & _ & H4 & _).
  - vm_compute. reflexivity.
  - split; [exact H1 | exact H4].
Defined.

(** X9: a failed construction, whatever the exception, leaves [id],
    [base_options], the compilable suffixes, [version], [is_cross] and
    [warn_args] as they were; of the object only [linker_exe] may have been
    assigned. *)
Theorem X9_armclang_failure_keeps_attributes
    (spawn : string -> string -> string + string * string) (st : State)
    (e : exn) :
  fst (ArmclangCompiler.__init__ spawn st) = Raise e ->
  id (self (snd (ArmclangCompiler.__init__ spawn st))) = id (self st)
  /\ base_options (self (snd (ArmclangCompiler.__init__ spawn st)))
     = base_options (self st)
  /\ can_compile_suffixes (self (snd (ArmclangCompiler.__init__ spawn st)))
     = can_compile_suffixes (self st)
  /\ version (self (snd (ArmclangCompiler.__init__ spawn st)))
     = version (self st)
  /\ is_cross (self (snd (ArmclangCompiler.__init__ spawn st)))
     = is_cross (self st)
  /\ warn_args (self (snd (ArmclangCompiler.__init__ spawn st)))
     = warn_args (self st).
Proof.
  destruct (is_cross (self st)) eqn:Hcross.
  - rewrite (armclang_init_run spawn st Hcross).
    destruct (spawn "armlink" "--vsn") as [e' | out];
      [intros _; cbn; rewrite Hcross; repeat split |].
    destruct (re.search_component (fst out)) as [line |];
      [| intros _; cbn; rewrite Hcross; repeat split].
    destruct (re.search_version line) as [v |];
      [| intros _; cbn; rewrite Hcross; repeat split].
    destruct (String.eqb (version (self st)) v); [discriminate |].
    intros _; cbn; rewrite Hcross; repeat split.
  - rewrite (armclang_init_not_cross spawn st Hcross).
    intros _. cbn. rewrite Hcross. repeat split.
Qed.

Lemma X9_armclang_failure_keeps_attributes_witness :
  id (self (snd (ArmclangCompiler.__init__
                   (prints "Component: ARM Compiler 6.4 Tool: armlink")
                   (fresh_state true "6.15"))))
  = id (self (fresh_state true "6.15"))
  /\ can_compile_suffixes
       (self (snd (ArmclangCompiler.__init__
                     (prints "Component: ARM Compiler 6.4 Tool: armlink")
                     (fresh_state true "6.15"))))
     = can_compile_suffixes (self (fresh_state true "6.15")).
Proof.
  destruct (X9_armclang_failure_keeps_attributes
              (prints "Component: ARM Compiler 6.4 Tool: armlink")
              (fresh_state true "6.15")
              (EnvironmentException mismatch_msg))
    as (H1 & _ & H3 & _).
  - vm_compute. reflexivity.
  - split; [exact H1 | exact H3].
Defined.

(** ** Which line and which version decide *)

(** If the search finds nothing, no line of the text contains the word. *)
Lemma search_component_None_inv (s : string) :
  re.search_component s = None ->
  Forall (fun line => PyStr.contains "Component" line = false)
         (PyStr.split PyStr.newline s).
Proof.
  induction s as [| c s IH].
  - intros _. apply Forall_cons_2; [reflexivity | apply Forall_nil_2].
  - cbn [re.search_component]. unfold re.match_component_at.
    cbn [PyStr.split re.line_prefix].
    destruct (Ascii.eqb c PyStr.newline).
    + change (PyStr.contains "Component" "") with false. cbn iota.
      intros H. apply Forall_cons_2; [reflexivity | now apply IH].
    + pose proof (line_prefix_head s) as Hhd.
      destruct (PyStr.split PyStr.newline s) as [| l ls];
        [discriminate |].
      assert (Hl : l = re.line_prefix s) by (cbn in Hhd; congruence).
      rewrite <- Hl.
      destruct (PyStr.contains "Component" (String c l)) eqn:Hc;
        [discriminate |].
      intros H. apply IH in H.
      apply Forall_cons_2; [exact Hc | exact (Forall_inv_tail H)].
Qed.

(** X10: only the first line of the linker output that contains the word
    Component counts.  Whatever stands on the lines before it (without the
    word), on the lines after it and on standard error, the outcome is the
    one decided by the version token of that line. *)
Theorem X10_first_component_line_decides
    (spawn : string -> string -> string + string * string) (st : State)
    (stdo stderr line : string) (before after : list string) :
  is_cross (self st) = true ->
  spawn "armlink" "--vsn" = inr (stdo, stderr) ->
  PyStr.split PyStr.newline stdo = before ++ line :: after ->
  Forall (fun l => PyStr.contains "Component" l = false) before ->
  PyStr.contains "Component" line = true ->
  fst (ArmclangCompiler.__init__ spawn st)
  = match re.search_version line with
    | None => Raise TypeError
    | Some v =>
        if String.eqb (version (self st)) v then Ok tt
        else Raise (EnvironmentException mismatch_msg)
    end.
Proof.
  intros Hcross Hspawn Hsplit Hbefore Hline.
  rewrite (armclang_init_run spawn st Hcross), Hspawn. cbn [fst].
  rewrite (search_component_first_line stdo before line after
             Hsplit Hbefore Hline).
  destruct (re.search_version line) as [v |]; [| reflexivity].
  destruct (String.eqb (version (self st)) v); reflexivity.
Qed.

Lemma X10_first_component_line_decides_witness :
  fst (ArmclangCompiler.__init__
         (fun _ _ =>
            inr ("Product: ARM Compiler 6.15"
                 +:+ String PyStr.newline "Component: ARM Compiler 6.4"
                 +:+ String PyStr.newline "Component: ARM Compiler 6.15",
                 "warning"))
         (fresh_state true "6.15"))
  = Raise (EnvironmentException mismatch_msg).
Proof.
  apply (X10_first_component_line_decides _ (fresh_state true "6.15")
           ("Product: ARM Compiler 6.15"
            +:+ String PyStr.newline "Component: ARM Compiler 6.4"
            +:+ String PyStr.newline "Component: ARM Compiler 6.15")
           "warning" "Component: ARM Compiler 6.4"
           ["Product: ARM Compiler 6.15"]
           ["Component: ARM Compiler 6.15"]).
  - reflexivity.
  - reflexivity.
  - vm_compute. reflexivity.
  - apply Forall_cons_2; [vm_compute; reflexivity | apply Forall_nil_2].
  - vm_compute. reflexivity.
Defined.

(** X11: a construction can only succeed for a compiler whose own version
    string has the form the linker-version pattern extracts: one or two
    digits, a dot and a digit, then whatever follows.  A compiler whose
    version has no dot, or a major component of three digits, is rejected
    whatever the linker prints. *)
Theorem X11_armclang_success_version_shape
    (spawn : string -> string -> string + string * string) (st : State) :
  fst (ArmclangCompiler.__init__ spawn st) = Ok tt ->
  exists major d rest,
    version (self st) = major +:+ "." +:+ String d rest
    /\ (String.length major = 1 \/ String.length major = 2)
    /\ all_digits major = true
    /\ PyStr.is_digit d = true.
Proof.
  destruct (is_cross (self st)) eqn:Hcross;
    [| rewrite (armclang_init_not_cross spawn st Hcross); discriminate].
  rewrite (armclang_init_run spawn st Hcross).
  destruct (spawn "armlink" "--vsn") as [e | out]; [discriminate |].
  destruct (re.search_component (fst out)) as [line |]; [| discriminate].
  destruct (re.search_version line) as [v |] eqn:Hv; [| discriminate].
  destruct (String.eqb_spec (version (self st)) v) as [Heq | _];
    [| discriminate].
  intros _. rewrite Heq.
  apply search_version_from_shape in Hv as (pre & post & _ & _ & Hm).
  apply match_version_at_shape in Hm
    as (major & d & rest & _ & Htok & Hlen & Hdig & Hd & _).
  exists major, d, rest. auto.
Qed.

Lemma X11_armclang_success_version_shape_witness :
  exists major d rest,
    "6.15" = major +:+ "." +:+ String d rest
    /\ (String.length major = 1 \/ String.length major = 2)
    /\ all_digits major = true
    /\ PyStr.is_digit d = true.
Proof.
  apply (X11_armclang_success_version_shape
           (prints "Component: ARM Compiler 6.15 Tool: armlink")
           (fresh_state true "6.15")).
  vm_compute. reflexivity.
Defined.

(** X12: once the linker has answered, the construction ends in an
    [AssertionError] exactly when no line of its output contains the word
    Component. *)
Theorem X12_armclang_AssertionError_iff
    (spawn : string -> string -> string + string * string) (st : State)
    (stdo stderr : string) :
  is_cross (self st) = true ->
  spawn "armlink" "--vsn" = inr (stdo, stderr) ->
  fst (ArmclangCompiler.__init__ spawn st) = Raise AssertionError
  <-> Forall (fun line => PyStr.contains "Component" line = false)
             (PyStr.split PyStr.newline stdo).
Proof.
  intros Hcross Hspawn.
  rewrite (armclang_init_run spawn st Hcross), Hspawn. cbn [fst].
  split.
  - destruct (re.search_component stdo) as [line |] eqn:Hline.
    + destruct (re.search_version line) as [v |]; [| discriminate].
      destruct (String.eqb (version (self st)) v); discriminate.
    + intros _. now apply search_component_None_inv.
  - intros Hall. now rewrite (search_component_None stdo Hall).
Qed.

Lemma X12_armclang_AssertionError_iff_witness :
  fst (ArmclangCompiler.__init__ (prints "armlink: usage")
         (fresh_state true "6.15")) = Raise AssertionError
  <-> Forall (fun line => PyStr.contains "Component" line = false)
             (PyStr.split PyStr.newline "armlink: usage").
Proof.
  apply (X12_armclang_AssertionError_iff (prints "armlink: usage")
           (fresh_state true "6.15") "armlink: usage" "");
    reflexivity.
Defined.

(** ** Construction of the armcc mixin *)

(** X13: for a cross compiler the armcc constructor succeeds without
    launching anything; afterwards [id] is [arm], [warn_args] maps each of
    the four warning levels to the empty list, [s] has been added to the
    compilable suffixes, and nothing else changed. *)
Theorem X13_armcc_constructed_object (st : State) :
  is_cross (self st) = true ->
  fst (ArmCompiler.__init__ st) = Ok tt
  /\ launched (snd (ArmCompiler.__init__ st)) = launched st
  /\ id (self (snd (ArmCompiler.__init__ st))) = "arm"
  /\ (forall level,
        warn_args (self (snd (ArmCompiler.__init__ st))) !! level
        = if bool_decide (level ∈ ["0"; "1"; "2"; "3"]) then Some []
          else None)
  /\ can_compile_suffixes (self (snd (ArmCompiler.__init__ st)))
     = {["s"]} ∪ can_compile_suffixes (self st)
  /\ version (self (snd (ArmCompiler.__init__ st))) = version (self st)
  /\ linker_exe (self (snd (ArmCompiler.__init__ st)))
     = linker_exe (self st)
  /\ base_options (self (snd (ArmCompiler.__init__ st)))
     = base_options (self st).
Proof.
  intros Hcross.
  unfold ArmCompiler.__init__, mbind, M_bind, bind, get_self, set_self, raise.
  cbn [self]. rewrite Hcross.
  cbn [negb fst snd self launched with_id with_warn_args add_suffix id
       warn_args can_compile_suffixes version linker_exe base_options
       is_cross].
  repeat split.
  intros level. rewrite app_nil_r.
  case_bool_decide as Hlevel.
  - repeat (apply elem_of_cons in Hlevel as [-> | Hlevel]);
      try reflexivity.
    now apply elem_of_nil in Hlevel.
  - apply not_elem_of_list_to_map_1. exact Hlevel.
Qed.

Lemma X13_armcc_constructed_object_witness :
  fst (ArmCompiler.__init__ (fresh_state true "5.06")) = Ok tt
  /\ id (self (snd (ArmCompiler.__init__ (fresh_state true "5.06")))) = "arm".
Proof.
  destruct (X13_armcc_constructed_object (fresh_state true "5.06") eq_refl)
    as (H1 & _ & H3 & _).
  split; [exact H1 | exact H3].
Defined.

(** ** Absolute paths and the rewriter *)

Lemma join_absolute_r (a b : string) :
  PyStr.startswith "/" b = true -> posixpath.join a b = b.
Proof. unfold posixpath.join, posixpath.sep. now intros ->. Qed.

Lemma startswith_slash_append (a x : string) :
  PyStr.startswith "/" a = true -> PyStr.startswith "/" (a +:+ x) = true.
Proof. destruct a as [| c a]; [discriminate |]. now rewrite append_cons. Qed.

Lemma join_absolute_l (a b : string) :
  PyStr.startswith "/" a = true ->
  PyStr.startswith "/" (posixpath.join a b) = true.
Proof.
  intros Ha. unfold posixpath.join, posixpath.sep.
  destruct (PyStr.startswith "/" b) eqn:Hb; [exact Hb |].
  destruct (negb (PyStr.truthy a) || PyStr.endswith_char "/" a);
    now apply startswith_slash_append.
Qed.

Lemma normpath_truthy (path : string) :
  PyStr.truthy (posixpath.normpath path) = true.
Proof.
  unfold posixpath.normpath.
  destruct (String.eqb path ""); [reflexivity |].
  match goal with
  | |- PyStr.truthy (if PyStr.truthy ?p then _ else _) = true =>
      destruct (PyStr.truthy p) eqn:Hp; [exact Hp | reflexivity]
  end.
Qed.

Lemma initial_slashes_absolute (path : string) :
  PyStr.startswith "/" path = true ->
  exists n, posixpath.initial_slashes path = S n.
Proof.
  intros H. unfold posixpath.initial_slashes. rewrite H.
  destruct (PyStr.startswith "//" path && negb (PyStr.startswith "///" path));
    eauto.
Qed.

Lemma normpath_absolute (path : string) :
  PyStr.startswith "/" path = true ->
  PyStr.startswith "/" (posixpath.normpath path) = true.
Proof.
  intros H. unfold posixpath.normpath.
  destruct path as [| c path]; [discriminate |].
  change (String.eqb (String c path) "") with false. cbn iota.
  destruct (initial_slashes_absolute _ H) as [n ->].
  change (Nat.eqb (S n) 0) with false. cbn iota.
  cbn [posixpath.repeat_sep]. rewrite append_cons. reflexivity.
Qed.

Lemma drop2_prefixed (tok rest : string) :
  has_path_prefix tok = true ->
  PyStr.drop 2 (PyStr.take 2 tok +:+ rest) = rest.
Proof.
  unfold has_path_prefix. intros H. apply orb_true_iff in H.
  destruct H as [H | H]; apply String.eqb_eq in H; rewrite H; reflexivity.
Qed.

(** X14: a path flag whose path is already absolute is not moved under
    the base directory: it is replaced by its own normalized path, and on a
    list whose path flags are all absolute the outcome of the rewriter does
    not depend on the base directory. *)
Theorem X14_absolute_paths_ignore_base_dir (h : gmap nat (list string))
    (pl : nat) (args : list string) (build_dir : string) :
  h !! pl = Some args ->
  Forall (fun tok => has_path_prefix tok = true ->
                     PyStr.startswith "/" (PyStr.drop 2 tok) = true) args ->
  ArmCompiler.compute_parameters_with_absolute_paths pl build_dir h
  = (pl, <[pl := (fun tok =>
                    if has_path_prefix tok
                    then PyStr.take 2 tok +:+
                         posixpath.normpath (PyStr.drop 2 tok)
                    else tok) <$> args]> h)
  /\ ArmclangCompiler.compute_parameters_with_absolute_paths pl build_dir h
     = ArmCompiler.compute_parameters_with_absolute_paths pl build_dir h.
Proof.
  intros Hl Habs. split; [| now rewrite armclang_rewriter_same].
  rewrite (compute_parameters_spec pl build_dir h args Hl).
  assert (Heq : rewrite_paths args build_dir
                = (fun tok =>
                     if has_path_prefix tok
                     then PyStr.take 2 tok +:+
                          posixpath.normpath (PyStr.drop 2 tok)
                     else tok) <$> args).
  { clear Hl. unfold rewrite_paths.
    induction Habs as [| tok args Htok _ IH]; [reflexivity |].
    rewrite !fmap_cons, IH. f_equal.
    unfold rewrite_token. destruct (has_path_prefix tok); [| reflexivity].
    now rewrite (join_absolute_r build_dir _ (Htok eq_refl)). }
  now rewrite Heq.
Qed.

Lemma X14_absolute_paths_ignore_base_dir_witness :
  ArmCompiler.compute_parameters_with_absolute_paths 1 "/build"
    (one_list ["-I/usr/../opt/inc"; "-c"])
  = (1, <[1 := ["-I/opt/inc"; "-c"]]> (one_list ["-I/usr/../opt/inc"; "-c"])).
Proof.
  apply (X14_absolute_paths_ignore_base_dir
           (one_list ["-I/usr/../opt/inc"; "-c"]) 1
           ["-I/usr/../opt/inc"; "-c"] "/build").
  - reflexivity.
  - apply Forall_cons_2; [reflexivity |].
    apply Forall_cons_2; [discriminate | apply Forall_nil_2].
Defined.

(** X15: with an absolute base directory every path flag comes out with an
    absolute path, and whatever the base directory no path flag comes out
    with an empty path. *)
Theorem X15_rewritten_paths_absolute (h : gmap nat (list string))
    (pl : nat) (args : list string) (build_dir : string) (idx : nat)
    (tok : string) :
  h !! pl = Some args ->
  args !! idx = Some tok ->
  has_path_prefix tok = true ->
  exists path,
    snd (ArmCompiler.compute_parameters_with_absolute_paths pl build_dir h)
      !! pl ≫= (fun l => l !! idx)
    = Some (PyStr.take 2 tok +:+ path)
    /\ PyStr.truthy path = true
    /\ (PyStr.startswith "/" build_dir = true ->
        PyStr.startswith "/" path = true).
Proof.
  intros Hl Htok Hpre.
  exists (posixpath.normpath (posixpath.join build_dir (PyStr.drop 2 tok))).
  rewrite (compute_parameters_spec pl build_dir h args Hl). cbn [snd].
  rewrite lookup_insert_eq. cbn [mbind option_bind].
  rewrite (rewrite_paths_lookup args build_dir idx tok Htok).
  unfold rewrite_token. rewrite Hpre.
  split; [reflexivity |]. split; [apply normpath_truthy |].
  intros Hbase. now apply normpath_absolute, join_absolute_l.
Qed.

Lemma X15_rewritten_paths_absolute_witness :
  exists path,
    snd (ArmCompiler.compute_parameters_with_absolute_paths 1 "/build"
           (one_list ["-c"; "-L"])) !! 1 ≫= (fun l => l !! 1)
    = Some (PyStr.take 2 "-L" +:+ path)
    /\ PyStr.truthy path = true
    /\ (PyStr.startswith "/" "/build" = true ->
        PyStr.startswith "/" path = true).
Proof.
  apply (X15_rewritten_paths_absolute (one_list ["-c"; "-L"]) 1
           ["-c"; "-L"] "/build" 1 "-L"); reflexivity.
Defined.

(** ** Normalizing twice *)

Lemma split_no_sep (s : string) :
  Forall (fun c => no_sep c = true) (PyStr.split posixpath.sep s).
Proof.
  induction s as [| c s IH]; cbn [PyStr.split].
  - apply Forall_cons_2; [reflexivity | apply Forall_nil_2].
  - destruct (Ascii.eqb c posixpath.sep) eqn:Hc.
    + apply Forall_cons_2; [reflexivity | exact IH].
    + destruct (PyStr.split posixpath.sep s) as [| l ls].
      * apply Forall_cons_2; [| apply Forall_nil_2].
        cbn [no_sep]. now rewrite Hc.
      * apply Forall_cons_2; [| exact (Forall_inv_tail IH)].
        cbn [no_sep]. rewrite Hc. exact (Forall_inv IH).
Qed.

Lemma split_whole (c : string) :
  no_sep c = true -> PyStr.split posixpath.sep c = [c].
Proof.
  induction c as [| x c IH]; [reflexivity |].
  cbn [no_sep PyStr.split]. intros H. apply andb_true_iff in H as [Hx Hc].
  apply negb_true_iff in Hx. rewrite Hx, (IH Hc). reflexivity.
Qed.

Lemma split_first (c rest : string) :
  no_sep c = true ->
  PyStr.split posixpath.sep (c +:+ String posixpath.sep rest)
  = c :: PyStr.split posixpath.sep rest.
Proof.
  induction c as [| x c IH]; intros H.
  - rewrite append_nil_l. cbn [PyStr.split]. now rewrite Ascii.eqb_refl.
  - cbn [no_sep] in H. apply andb_true_iff in H as [Hx Hc].
    apply negb_true_iff in Hx.
    rewrite append_cons. cbn [PyStr.split]. rewrite Hx, (IH Hc). reflexivity.
Qed.

(** Splitting the text of a component list gives the list back. *)
Lemma split_join (comps : list string) :
  comps <> [] ->
  Forall (fun c => no_sep c = true) comps ->
  PyStr.split posixpath.sep (PyStr.join "/" comps) = comps.
Proof.
  induction comps as [| c comps IH]; [congruence |].
  intros _ Hall. destruct comps as [| c' comps].
  - cbn [PyStr.join]. apply split_whole. exact (Forall_inv Hall).
  - change (PyStr.join "/" (c :: c' :: comps))
      with (c +:+ String posixpath.sep (PyStr.join "/" (c' :: comps))).
    rewrite (split_first _ _ (Forall_inv Hall)).
    f_equal. apply IH; [discriminate | exact (Forall_inv_tail Hall)].
Qed.

Lemma Forall_removelast {A : Type} (P : A -> Prop) (l : list A) :
  Forall P l -> Forall P (removelast l).
Proof.
  induction 1 as [| x l Hx Hl IH]; [apply Forall_nil_2 |].
  cbn [removelast]. destruct l; [apply Forall_nil_2 |].
  apply Forall_cons_2; assumption.
Qed.

Lemma normpath_step_no_sep (slashes : nat) (acc : list string)
    (comp : string) :
  Forall (fun c => no_sep c = true) acc ->
  no_sep comp = true ->
  Forall (fun c => no_sep c = true)
         (posixpath.normpath_step slashes acc comp).
Proof.
  intros Hacc Hcomp. unfold posixpath.normpath_step, posixpath.pop.
  repeat match goal with
         | |- Forall _ (if ?b then _ else _) => destruct b
         end;
    try assumption.
  - apply Forall_app. split; [assumption |].
    apply Forall_cons_2; [assumption | apply Forall_nil_2].
  - now apply Forall_removelast.
Qed.

Lemma normpath_fold_no_sep (slashes : nat) (comps acc : list string) :
  Forall (fun c => no_sep c = true) comps ->
  Forall (fun c => no_sep c = true) acc ->
  Forall (fun c => no_sep c = true)
         (fold_left (posixpath.normpath_step slashes) comps acc).
Proof.
  intros Hcomps. revert acc.
  induction Hcomps as [| c comps Hc _ IH]; intros acc Hacc; [exact Hacc |].
  cbn [fold_left]. apply IH. now apply normpath_step_no_sep.
Qed.

(** An ordinary component is appended. *)
Lemma normpath_step_ordinary (slashes : nat) (acc : list string)
    (comp : string) :
  comp <> "" -> comp <> "." -> comp <> ".." ->
  posixpath.normpath_step slashes acc comp = acc ++ [comp].
Proof.
  intros H1 H2 H3. unfold posixpath.normpath_step.
  apply String.eqb_neq in H1, H2, H3. now rewrite H1, H2, H3.
Qed.

Lemma normpath_fold_ordinary (slashes : nat) (rest acc : list string) :
  Forall (fun c => c <> "" /\ c <> "." /\ c <> "..") rest ->
  fold_left (posixpath.normpath_step slashes) rest acc = acc ++ rest.
Proof.
  intros Hrest. revert acc.
  induction Hrest as [| c rest (H1 & H2 & H3) _ IH]; intros acc.
  - now rewrite app_nil_r.
  - cbn [fold_left]. rewrite normpath_step_ordinary by assumption.
    rewrite IH, <- app_assoc. reflexivity.
Qed.

(** In a relative path, [..] after nothing but [..] is appended. *)
Lemma normpath_step_dotdot (j : nat) :
  posixpath.normpath_step 0 (replicate j "..") ".."
  = replicate (S j) "..".
Proof.
  unfold posixpath.normpath_step. cbn [String.eqb Ascii.eqb Bool.eqb orb negb].
  destruct j as [| j].
  - reflexivity.
  - rewrite bool_decide_eq_false_2 by discriminate.
    unfold posixpath.last_is_dotdot.
    rewrite (replicate_S_end j), last_snoc. cbn.
    now rewrite <- !replicate_S_end.
Qed.

Lemma normpath_fold_dotdots (k j : nat) :
  fold_left (posixpath.normpath_step 0) (replicate k "..")
            (replicate j "..")
  = replicate (j + k) "..".
Proof.
  revert j. induction k as [| k IH]; intros j.
  - now rewrite Nat.add_0_r.
  - cbn [replicate fold_left]. rewrite normpath_step_dotdot, IH.
    f_equal. lia.
Qed.

(** The loop of [normpath] rebuilds a component list that is already in
    normal form. *)
Lemma normpath_fold_collapsed_id (slashes : nat) (comps : list string) :
  collapsed slashes comps ->
  fold_left (posixpath.normpath_step slashes) comps [] = comps.
Proof.
  intros (k & rest & -> & Hrest & Hk).
  rewrite fold_left_app.
  destruct slashes as [| n].
  - change (@nil string) with (replicate 0 "..") at 1.
    rewrite (normpath_fold_dotdots k 0). cbn [Nat.add].
    now apply normpath_fold_ordinary.
  - rewrite (Hk ltac:(discriminate)). cbn [replicate fold_left app].
    now apply normpath_fold_ordinary.
Qed.

Lemma collapsed_head_nonempty (slashes : nat) (c0 : string)
    (cs : list string) :
  collapsed slashes (c0 :: cs) -> c0 <> "".
Proof.
  intros (k & rest & Heq & Hrest & _).
  destruct k as [| k].
  - cbn in Heq. subst rest. apply (Forall_inv Hrest).
  - cbn in Heq. injection Heq as -> _. discriminate.
Qed.

Lemma join_head (x : ascii) (c0' : string) (cs : list string) :
  exists Y, PyStr.join "/" (String x c0' :: cs) = String x Y.
Proof.
  destruct cs as [| c1 cs]; cbn [PyStr.join].
  - now exists c0'.
  - rewrite append_cons. eauto.
Qed.

Lemma split_leading_sep (s : string) :
  PyStr.split posixpath.sep (String posixpath.sep s)
  = "" :: PyStr.split posixpath.sep s.
Proof. reflexivity. Qed.

Lemma normpath_fold_skip_empty (slashes : nat) (l acc : list string) :
  fold_left (posixpath.normpath_step slashes) ("" :: l) acc
  = fold_left (posixpath.normpath_step slashes) l acc.
Proof. reflexivity. Qed.

(** The text of a component list in normal form is a fixed point of
    [normpath]. *)
Lemma normpath_render (slashes : nat) (comps : list string) :
  slashes <= 2 ->
  collapsed slashes comps ->
  Forall (fun c => no_sep c = true) comps ->
  posixpath.normpath (render slashes comps) = render slashes comps.
Proof.
  intros Hs Hcol Hsep.
  destruct comps as [| c0 cs].
  - destruct slashes as [| [| [| n]]]; [reflexivity .. | lia].
  - pose proof (collapsed_head_nonempty _ _ _ Hcol) as Hne.
    destruct c0 as [| x c0']; [contradiction |].
    pose proof (Forall_inv Hsep) as Hx. cbn [no_sep] in Hx.
    apply andb_true_iff in Hx as [Hx _]. apply negb_true_iff in Hx.
    assert (Hx' : Ascii.eqb "/" x = false)
      by (rewrite Ascii.eqb_sym; exact Hx).
    destruct (join_head x c0' cs) as [Y HY].
    assert (Hsplit : PyStr.split posixpath.sep
                       (PyStr.join "/" (String x c0' :: cs))
                     = String x c0' :: cs)
      by (apply split_join; [discriminate | exact Hsep]).
    pose proof (normpath_fold_collapsed_id _ _ Hcol) as Hfold.
    unfold render. rewrite HY in *.
    destruct slashes as [| [| [| n]]]; [ | | | lia];
      cbn [posixpath.repeat_sep]; rewrite ?append_cons, ?append_nil_l;
      cbn [PyStr.truthy]; unfold posixpath.normpath;
      cbn [String.eqb]; unfold posixpath.initial_slashes;
      cbn [PyStr.startswith]; rewrite ?Ascii.eqb_refl, ?Hx';
      cbn [andb negb Nat.eqb];
      rewrite ?split_leading_sep, Hsplit;
      rewrite ?normpath_fold_skip_empty, Hfold, HY;
      cbn [posixpath.repeat_sep]; rewrite ?append_cons, ?append_nil_l;
      reflexivity.
Qed.

Lemma initial_slashes_le_2 (path : string) :
  posixpath.initial_slashes path <= 2.
Proof.
  unfold posixpath.initial_slashes.
  repeat match goal with |- context [if ?b then _ else _] => destruct b end;
    lia.
Qed.

(** [normpath] is idempotent. *)
Lemma normpath_idempotent (path : string) :
  posixpath.normpath (posixpath.normpath path) = posixpath.normpath path.
Proof.
  destruct (String.eqb_spec path "") as [-> | Hne]; [reflexivity |].
  assert (Hr : posixpath.normpath path
               = render (posixpath.initial_slashes path)
                   (fold_left
                      (posixpath.normpath_step
                         (posixpath.initial_slashes path))
                      (PyStr.split posixpath.sep path) [])).
  { unfold posixpath.normpath, render.
    apply String.eqb_neq in Hne. rewrite Hne.
    destruct (Nat.eqb_spec (posixpath.initial_slashes path) 0) as [-> | _];
      reflexivity. }
  rewrite Hr. apply normpath_render.
  - apply initial_slashes_le_2.
  - apply normpath_fold_collapsed, collapsed_nil.
  - apply normpath_fold_no_sep; [apply split_no_sep | apply Forall_nil_2].
Qed.

Lemma rewrite_token_idempotent (build_dir tok : string) :
  PyStr.startswith "/" build_dir = true ->
  rewrite_token build_dir (rewrite_token build_dir tok)
  = rewrite_token build_dir tok.
Proof.
  intros Hbase.
  destruct (has_path_prefix tok) eqn:Hpre.
  - set (N := posixpath.normpath
                (posixpath.join build_dir (PyStr.drop 2 tok))).
    assert (HN : PyStr.startswith "/" N = true)
      by now apply normpath_absolute, join_absolute_l.
    assert (Hone : rewrite_token build_dir tok = PyStr.take 2 tok +:+ N)
      by (unfold rewrite_token; now rewrite Hpre).
    rewrite Hone. unfold rewrite_token, has_path_prefix.
    rewrite (take2_prefixed tok N Hpre), (drop2_prefixed tok N Hpre).
    fold (has_path_prefix tok). rewrite Hpre.
    rewrite (join_absolute_r build_dir N HN).
    unfold N. now rewrite normpath_idempotent.
  - now rewrite !(rewrite_token_unprefixed build_dir tok Hpre).
Qed.

(** X16: with an absolute base directory the rewriter is idempotent: a
    second run on the list it has rewritten changes nothing. *)
Theorem X16_rewriter_idempotent_absolute_base (h : gmap nat (list string))
    (pl : nat) (args : list string) (build_dir : string) :
  PyStr.startswith "/" build_dir = true ->
  h !! pl = Some args ->
  ArmCompiler.compute_parameters_with_absolute_paths pl build_dir
    (snd (ArmCompiler.compute_parameters_with_absolute_paths pl build_dir h))
  = ArmCompiler.compute_parameters_with_absolute_paths pl build_dir h
  /\ ArmclangCompiler.compute_parameters_with_absolute_paths pl build_dir
       (snd (ArmclangCompiler.compute_parameters_with_absolute_paths
               pl build_dir h))
     = ArmclangCompiler.compute_parameters_with_absolute_paths
         pl build_dir h.
Proof.
  intros Hbase Hl. rewrite armclang_rewriter_same.
  rewrite (compute_parameters_spec pl build_dir h args Hl). cbn [snd].
  rewrite (compute_parameters_spec pl build_dir _
             (rewrite_paths args build_dir))
    by apply lookup_insert_eq.
  rewrite insert_insert_eq.
  assert (Hidem : rewrite_paths (rewrite_paths args build_dir) build_dir
                  = rewrite_paths args build_dir).
  { unfold rewrite_paths. rewrite <- list_fmap_compose.
    apply list_fmap_ext. intros i tok _. cbn.
    now apply rewrite_token_idempotent. }
  rewrite Hidem. split; reflexivity.
Qed.

Lemma X16_rewriter_idempotent_absolute_base_witness :
  ArmCompiler.compute_parameters_with_absolute_paths 1 "/build"
    (snd (ArmCompiler.compute_parameters_with_absolute_paths 1 "/build"
            (one_list ["-I../inc"; "-c"; "-Llib/./x"])))
  = ArmCompiler.compute_parameters_with_absolute_paths 1 "/build"
      (one_list ["-I../inc"; "-c"; "-Llib/./x"]).
Proof.
  apply (X16_rewriter_idempotent_absolute_base
           (one_list ["-I../inc"; "-c"; "-Llib/./x"]) 1
           ["-I../inc"; "-c"; "-Llib/./x"] "/build");
    reflexivity.
Defined.

(** ** Where the version token ends *)

(** The first character of [s], if any, is not a digit. *)
Lemma span_digit_stops (s a b : string) :
  PyStr.span PyStr.is_digit s = (a, b) ->
  forall c rest, b = String c rest -> PyStr.is_digit c = false.
Proof.
  intros H c rest ->. exact (span_maximal _ _ _ _ H).
Qed.

Lemma dot_digits_stops (s g r : string) :
  re.dot_digits s = Some (g, r) ->
  forall c rest, r = String c rest -> PyStr.is_digit c = false.
Proof.
  destruct s as [| x s]; [discriminate |]. cbn [re.dot_digits].
  destruct (Ascii.eqb x "."); [| discriminate].
  destruct (PyStr.span PyStr.is_digit s) as [ds r'] eqn:Hspan.
  destruct (PyStr.truthy ds); [| discriminate].
  intros [= _ <-]. exact (span_digit_stops _ _ _ Hspan).
Qed.

Lemma dot_digits_star_stops (fuel : nat) :
  forall s gs r,
    (forall c rest, s = String c rest -> PyStr.is_digit c = false) ->
    re.dot_digits_star fuel s = (gs, r) ->
    forall c rest, r = String c rest -> PyStr.is_digit c = false.
Proof.
  induction fuel as [| fuel IH]; intros s gs r Hs;
    cbn [re.dot_digits_star].
  - intros [= _ <-]. exact Hs.
  - destruct (re.dot_digits s) as [[g r1] |] eqn:Hg.
    + destruct (re.dot_digits_star fuel r1) as [gs' r'] eqn:Hstar.
      intros [= _ <-].
      exact (IH r1 gs' r' (dot_digits_stops _ _ _ Hg) Hstar).
    + intros [= _ <-]. exact Hs.
Qed.

Lemma is_digit_alnum (c : ascii) :
  PyStr.is_digit c = true -> PyStr.is_alnum c = true.
Proof. unfold PyStr.is_alnum. intros ->. apply orb_true_r. Qed.

Lemma dash_tag_stops (s t r : string) :
  (forall c rest, s = String c rest -> PyStr.is_digit c = false) ->
  re.dash_tag s = (t, r) ->
  forall c rest, r = String c rest -> PyStr.is_digit c = false.
Proof.
  intros Hs. destruct s as [| x s]; cbn [re.dash_tag].
  - intros [= _ <-]. discriminate.
  - destruct (Ascii.eqb x "-").
    + destruct (PyStr.span PyStr.is_alnum s) as [a r'] eqn:Hspan.
      destruct (PyStr.truthy a); intros [= _ <-]; [| exact Hs].
      intros c rest ->.
      pose proof (span_maximal _ _ _ _ Hspan) as Hc. cbn in Hc.
      destruct (PyStr.is_digit c) eqn:Hd; [| reflexivity].
      apply is_digit_alnum in Hd. congruence.
    + intros [= _ <-]. exact Hs.
Qed.

(** What an anchored tail match leaves behind does not start with a
    digit. *)
Lemma match_version_tail_post (s t : string) :
  re.match_version_tail s = Some t ->
  exists post,
    s = t +:+ post
    /\ (forall c rest, post = String c rest -> PyStr.is_digit c = false).
Proof.
  unfold re.match_version_tail.
  destruct (re.dot_digits s) as [[g r] |] eqn:Hg; [| discriminate].
  destruct (re.dot_digits_star (String.length r) r) as [gs r'] eqn:Hstar.
  destruct (re.dash_tag r') as [tag post] eqn:Htag.
  intros [= <-]. exists post. split.
  - apply dot_digits_shape in Hg as (d & ds & _ & _ & ->).
    apply dot_digits_star_append in Hstar as ->.
    apply dash_tag_append in Htag as ->.
    now rewrite !append_assoc.
  - apply (dash_tag_stops r' tag post); [| exact Htag].
    apply (dot_digits_star_stops (String.length r) r gs r');
      [| exact Hstar].
    exact (dot_digits_stops _ _ _ Hg).
Qed.

Lemma match_version_at_post (s m : string) :
  re.match_version_at s = Some m ->
  exists post,
    s = m +:+ post
    /\ (forall c rest, post = String c rest -> PyStr.is_digit c = false).
Proof.
  unfold re.match_version_at.
  destruct s as [| d1 s1]; [discriminate |].
  assert (Hone :
    (if PyStr.is_digit d1
     then match re.match_version_tail s1 with
          | Some t => Some (String d1 t)
          | None => None
          end
     else None) = Some m ->
    exists post,
      String d1 s1 = m +:+ post
      /\ (forall c rest, post = String c rest -> PyStr.is_digit c = false)).
  { destruct (PyStr.is_digit d1); [| discriminate].
    destruct (re.match_version_tail s1) as [t |] eqn:Ht; [| discriminate].
    intros [= <-].
    apply match_version_tail_post in Ht as (post & -> & Hpost).
    exists post. split; [reflexivity | exact Hpost]. }
  destruct s1 as [| d2 s2]; [exact Hone |].
  destruct (PyStr.is_digit d1 && PyStr.is_digit d2); [| exact Hone].
  destruct (re.match_version_tail s2) as [t |] eqn:Ht; [| exact Hone].
  intros [= <-].
  apply match_version_tail_post in Ht as (post & -> & Hpost).
  exists post. split; [reflexivity | exact Hpost].
Qed.

Lemma search_version_from_post (s : string) :
  forall prev m,
    re.search_version_from prev s = Some m ->
    exists pre post,
      s = pre +:+ m +:+ post
      /\ re.lookbehind_ok (last_char prev pre) = true
      /\ (forall c rest, post = String c rest -> PyStr.is_digit c = false).
Proof.
  induction s as [| x s IH]; intros prev m; cbn [re.search_version_from].
  - destruct (re.lookbehind_ok prev); discriminate.
  - assert (Hrest : re.search_version_from (Some x) s = Some m ->
      exists pre post,
        String x s = pre +:+ m +:+ post
        /\ re.lookbehind_ok (last_char prev pre) = true
        /\ (forall c rest, post = String c rest ->
              PyStr.is_digit c = false)).
    { intros H. apply IH in H as (pre & post & -> & Hlb & Hpost).
      exists (String x pre), post. repeat split; assumption. }
    destruct (re.lookbehind_ok prev) eqn:Hlb; [| exact Hrest].
    destruct (re.match_version_at (String x s)) as [m' |] eqn:Hm;
      [| exact Hrest].
    intros [= <-].
    apply match_version_at_post in Hm as (post & Hs & Hpost).
    exists "", post. rewrite append_nil_l. repeat split; assumption.
Qed.

(** X17: the version token is cut out whole.  In the line it is neither
    preceded by a digit or a dot nor followed by a digit, so a linker that
    reports 6.15 is never read as 6.1 or as 5. *)
Theorem X17_version_token_delimited (line tok : string) :
  re.search_version line = Some tok ->
  exists pre post,
    line = pre +:+ tok +:+ post
    /\ (forall c, last_char None pre = Some c ->
          PyStr.is_digit c = false /\ c <> "."%char)
    /\ (forall c rest, post = String c rest -> PyStr.is_digit c = false).
Proof.
  unfold re.search_version. intros H.
  apply search_version_from_post in H as (pre & post & -> & Hlb & Hpost).
  exists pre, post. split; [reflexivity |]. split; [| exact Hpost].
  intros c Hc. rewrite Hc in Hlb. cbn [re.lookbehind_ok] in Hlb.
  apply negb_true_iff, orb_false_iff in Hlb as [Hnd Hndot].
  split; [exact Hnd | now apply Ascii.eqb_neq].
Qed.

Lemma X17_version_token_delimited_witness :
  exists pre post,
    "Component: ARM Compiler 6.15 Tool: armlink" = pre +:+ "6.15" +:+ post
    /\ (forall c, last_char None pre = Some c ->
          PyStr.is_digit c = false /\ c <> "."%char)
    /\ (forall c rest, post = String c rest -> PyStr.is_digit c = false).
Proof.
  apply (X17_version_token_delimited
           "Component: ARM Compiler 6.15 Tool: armlink" "6.15").
  vm_compute. reflexivity.
Defined.

(** X18: a Component line without any dot holds no version token, and the
    construction then ends in a [TypeError], raised when the missing token
    is appended to the comparison operator. *)
Theorem X18_component_line_without_version
    (spawn : string -> string -> string + string * string) (st : State)
    (stdo stderr line : string) :
  is_cross (self st) = true ->
  spawn "armlink" "--vsn" = inr (stdo, stderr) ->
  re.search_component stdo = Some line ->
  PyStr.contains "." line = false ->
  re.search_version line = None
  /\ fst (ArmclangCompiler.__init__ spawn st) = Raise TypeError.
Proof.
  intros Hcross Hspawn Hline Hdot.
  assert (Hnone : re.search_version line = None).
  { destruct (re.search_version line) as [tok |] eqn:Htok; [| reflexivity].
    exfalso. unfold re.search_version in Htok.
    apply search_version_from_shape in Htok as (pre & post & -> & _ & Hm).
    apply match_version_at_shape in Hm
      as (major & d & rest & _ & -> & _).
    assert (Heq : pre +:+ (major +:+ String "." (String d rest)) +:+ post
                  = (pre +:+ major) +:+ "." +:+ (String d rest +:+ post))
      by (rewrite !append_assoc; reflexivity).
    rewrite Heq, contains_infix in Hdot. discriminate. }
  split; [exact Hnone |].
  rewrite (armclang_init_run spawn st Hcross), Hspawn. cbn [fst].
  now rewrite Hline, Hnone.
Qed.

Lemma X18_component_line_without_version_witness :
  re.search_version "Component: ARM Compiler" = None
  /\ fst (ArmclangCompiler.__init__ (prints "Component: ARM Compiler")
            (fresh_state true "6.15")) = Raise TypeError.
Proof.
  apply (X18_component_line_without_version
           (prints "Component: ARM Compiler") (fresh_state true "6.15")
           "Component: ARM Compiler" "" "Component: ARM Compiler").
  - reflexivity.
  - reflexivity.
  - vm_compute. reflexivity.
  - vm_compute. reflexivity.
Defined.
